(** * vmCloneDialog: the clone dialog of cockpit-machines

    A shallow embedding of [src/components/vm/vmCloneDialog.tsx]: the
    filesystem probe that runs when the dialog opens (disk locator, filesystem
    prober, trial reflink copy) and the clone invoker with its validation.

    JavaScript strings are sequences of UTF-16 code units; every string
    operation of the component ([split], [trim], the [\s+] regular
    expression, [===]) works on code units, so a string is a list of code
    units here.  Promises are modelled by a small monad that threads the
    React state of the dialog, records the spawned commands and log lines in
    order, and carries fulfilment or rejection. *)

From Stdlib Require Import List NArith Bool Arith Lia.
From Stdlib Require Ascii String.
Import ListNotations String.StringSyntax.

Local Open Scope string_scope.
Local Open Scope bool_scope.
Local Open Scope list_scope.

(** ** JavaScript strings *)

Module Js.

Definition char := N.
Definition str := list char.

(** An ASCII literal as a JavaScript string. *)
Definition lit (s : String.string) : str :=
  List.map Ascii.N_of_ascii (String.list_ascii_of_string s).

Fixpoint eqb (a b : str) : bool :=
  match a, b with
  | [], [] => true
  | x :: a', y :: b' => N.eqb x y && eqb a' b'
  | _, _ => false
  end.

(** ToBoolean on a string: the empty string is the only falsy one. *)
Definition truthy (s : str) : bool :=
  match s with
  | [] => false
  | _ :: _ => true
  end.

(** WhiteSpace and LineTerminator code units: what [String.prototype.trim]
    strips and what [\s] matches. *)
Definition isWhiteSpace (c : char) : bool :=
  ((9 <=? c) && (c <=? 13))%N
  || (c =? 32)%N || (c =? 160)%N || (c =? 0x1680)%N
  || ((0x2000 <=? c) && (c <=? 0x200a))%N
  || (c =? 0x2028)%N || (c =? 0x2029)%N || (c =? 0x202f)%N
  || (c =? 0x205f)%N || (c =? 0x3000)%N || (c =? 0xfeff)%N.

Fixpoint trimStart (s : str) : str :=
  match s with
  | [] => []
  | c :: r => if isWhiteSpace c then trimStart r else s
  end.

Definition trimEnd (s : str) : str := rev (trimStart (rev s)).

Definition trim (s : str) : str := trimEnd (trimStart s).

(** Puts one more code unit in front of the first piece of a split. *)
Definition push_front (c : char) (pieces : list str) : list str :=
  match pieces with
  | [] => [[c]]
  | p :: ps => (c :: p) :: ps
  end.

(** [s.split(sep)] for a separator of one code unit. *)
Fixpoint split_char (sep : char) (s : str) : list str :=
  match s with
  | [] => [[]]
  | c :: r =>
      if (c =? sep)%N then [] :: split_char sep r
      else push_front c (split_char sep r)
  end.

(** [s.split(/\s+/)]: the pieces between maximal runs of white space.
    [in_run] says that the code unit before [s] belonged to a run that has
    already closed a piece. *)
Fixpoint split_ws_from (in_run : bool) (s : str) : list str :=
  match s with
  | [] => [[]]
  | c :: r =>
      if isWhiteSpace c then
        if in_run then split_ws_from true r else [] :: split_ws_from true r
      else push_front c (split_ws_from false r)
  end.

Definition split_ws (s : str) : list str := split_ws_from false s.

(** [a[i]] on an array of strings; the callers only index in range. *)
Definition at_ (a : list str) (i : nat) : str := nth i a [].

End Js.

Definition newline : Js.char := 10%N.

(** ** Disk locator (the [then] callback of the domblklist query) *)

Definition dash : Js.str := Js.lit "-".

(** The condition of the loop body on [parts], the tokens of one row. *)
Definition row_has_path (parts : list Js.str) : bool :=
  (2 <=? length parts)
  && Js.truthy (Js.at_ parts 1)
  && negb (Js.eqb (Js.at_ parts 1) dash).

(** [for (let i = ...; i < lines.length; i++)] with its [break];
    [fuel] bounds the number of iterations. *)
Fixpoint scan_lines (fuel i : nat) (lines : list Js.str) : Js.str :=
  match fuel with
  | O => []
  | S fuel' =>
      if i <? length lines then
        let parts := Js.split_ws (Js.trim (Js.at_ lines i)) in
        if row_has_path parts then Js.at_ parts 1
        else scan_lines fuel' (S i) lines
      else []
  end.

(** [diskPath] after the loop; [''] when no row qualifies. *)
Definition findDiskPath (output : Js.str) : Js.str :=
  let lines := Js.split_char newline output in
  scan_lines (length lines) 1 lines.

(** ** Props, React state and the events the component causes *)

(** Modelled from the spec: [ConnectionName] is declared in [src/types],
    which is not part of the sources at hand; the spec's connection scope is
    system-wide or per-user, libvirt's [system] and [session]. *)
Inductive ConnectionName := system | session.

Definition connection_str (c : ConnectionName) : Js.str :=
  match c with
  | system => Js.lit "system"
  | session => Js.lit "session"
  end.

Definition is_system (c : ConnectionName) : bool :=
  match c with
  | system => true
  | session => false
  end.

(** The [superuser] option of [cockpit.spawn]: ["try"], [false], or absent. *)
Inductive Superuser := su_try | su_false | su_absent.

Record SpawnOptions := {
  superuser : Superuser;
  err_message : bool;   (* err: "message" *)
  pty : bool
}.

(** [{ superuser: connectionName === "system" ? "try" : false }] *)
Definition probe_options (c : ConnectionName) : SpawnOptions :=
  {| superuser := if is_system c then su_try else su_false;
     err_message := false; pty := false |}.

Inductive Event :=
| Spawn (argv : list Js.str) (opts : SpawnOptions)
| ConsoleLog (msg : Js.str) (detail : option Js.str).

Record FileSystemInfo := { hasReflink : bool; fsType : Js.str }.

Record DialogError := { dialogError : option Js.str }.

Module Validation.
Record t := { name : option Js.str }.
End Validation.

(** The [useState] cells of [CloneDialog], and whether [Dialogs.close] has
    not been called yet. *)
Record State := {
  newVmName : Js.str;
  inProgress : bool;
  virtCloneOutput : Js.str;
  error : DialogError;
  fsInfo : FileSystemInfo;
  useReflink : bool;
  isCheckingFs : bool;
  isOpen : bool
}.

Definition initialState (name : Js.str) : State :=
  {| newVmName := name ++ Js.lit "-clone";
     inProgress := false;
     virtCloneOutput := [];
     error := {| dialogError := None |};
     fsInfo := {| hasReflink := false; fsType := [] |};
     useReflink := false;
     isCheckingFs := true;
     isOpen := true |}.

Definition with_newVmName (v : Js.str) (s : State) : State :=
  {| newVmName := v; inProgress := inProgress s;
     virtCloneOutput := virtCloneOutput s; error := error s;
     fsInfo := fsInfo s; useReflink := useReflink s;
     isCheckingFs := isCheckingFs s; isOpen := isOpen s |}.

Definition with_inProgress (v : bool) (s : State) : State :=
  {| newVmName := newVmName s; inProgress := v;
     virtCloneOutput := virtCloneOutput s; error := error s;
     fsInfo := fsInfo s; useReflink := useReflink s;
     isCheckingFs := isCheckingFs s; isOpen := isOpen s |}.

Definition with_virtCloneOutput (v : Js.str) (s : State) : State :=
  {| newVmName := newVmName s; inProgress := inProgress s;
     virtCloneOutput := v; error := error s;
     fsInfo := fsInfo s; useReflink := useReflink s;
     isCheckingFs := isCheckingFs s; isOpen := isOpen s |}.

Definition with_error (v : DialogError) (s : State) : State :=
  {| newVmName := newVmName s; inProgress := inProgress s;
     virtCloneOutput := virtCloneOutput s; error := v;
     fsInfo := fsInfo s; useReflink := useReflink s;
     isCheckingFs := isCheckingFs s; isOpen := isOpen s |}.

Definition with_fsInfo (v : FileSystemInfo) (s : State) : State :=
  {| newVmName := newVmName s; inProgress := inProgress s;
     virtCloneOutput := virtCloneOutput s; error := error s;
     fsInfo := v; useReflink := useReflink s;
     isCheckingFs := isCheckingFs s; isOpen := isOpen s |}.

Definition with_useReflink (v : bool) (s : State) : State :=
  {| newVmName := newVmName s; inProgress := inProgress s;
     virtCloneOutput := virtCloneOutput s; error := error s;
     fsInfo := fsInfo s; useReflink := v;
     isCheckingFs := isCheckingFs s; isOpen := isOpen s |}.

Definition with_isCheckingFs (v : bool) (s : State) : State :=
  {| newVmName := newVmName s; inProgress := inProgress s;
     virtCloneOutput := virtCloneOutput s; error := error s;
     fsInfo := fsInfo s; useReflink := useReflink s;
     isCheckingFs := v; isOpen := isOpen s |}.

Definition with_isOpen (v : bool) (s : State) : State :=
  {| newVmName := newVmName s; inProgress := inProgress s;
     virtCloneOutput := virtCloneOutput s; error := error s;
     fsInfo := fsInfo s; useReflink := useReflink s;
     isCheckingFs := isCheckingFs s; isOpen := v |}.

(** ** Promises

    A promise chain runs against the host, which answers each spawned
    command with its output or with a failure; it updates the state, leaves
    a trace of events in the order they happen, and settles. *)

Inductive Settled (A : Type) :=
| Fulfilled (value : A)
| Rejected (reason : Js.str).

Arguments Fulfilled {A} value.
Arguments Rejected {A} reason.

Definition Host := list Js.str -> Settled Js.str.

Definition Promise (A : Type) : Type :=
  Host -> State -> Settled A * State * list Event.

Module P.

Definition resolve {A} (a : A) : Promise A :=
  fun _ s => (Fulfilled a, s, []).

(** [p.then(f)] *)
Definition then_ {A B} (p : Promise A) (f : A -> Promise B) : Promise B :=
  fun h s =>
    match p h s with
    | (Fulfilled a, s1, t1) =>
        let '(r, s2, t2) := f a h s1 in (r, s2, t1 ++ t2)
    | (Rejected e, s1, t1) => (Rejected e, s1, t1)
    end.

(** [p.catch(g)] *)
Definition catch_ {A} (p : Promise A) (g : Js.str -> Promise A) : Promise A :=
  fun h s =>
    match p h s with
    | (Fulfilled a, s1, t1) => (Fulfilled a, s1, t1)
    | (Rejected e, s1, t1) =>
        let '(r, s2, t2) := g e h s1 in (r, s2, t1 ++ t2)
    end.

(** [p.finally(k)] *)
Definition finally_ {A} (p : Promise A) (k : Promise unit) : Promise A :=
  fun h s =>
    let '(r, s1, t1) := p h s in
    match k h s1 with
    | (Fulfilled _, s2, t2) => (r, s2, t1 ++ t2)
    | (Rejected e, s2, t2) => (Rejected e, s2, t1 ++ t2)
    end.

(** A state setter of [useState]. *)
Definition set (f : State -> State) : Promise unit :=
  fun _ s => (Fulfilled tt, f s, []).

(** [cockpit.spawn(argv, opts)], awaited by the chain. *)
Definition spawn (argv : list Js.str) (opts : SpawnOptions) : Promise Js.str :=
  fun h s => (h argv, s, [Spawn argv opts]).

(** [cockpit.spawn(argv, opts)] as a statement: the process is started and
    its promise dropped. *)
Definition spawn_dropped (argv : list Js.str) (opts : SpawnOptions)
  : Promise unit :=
  fun _ s => (Fulfilled tt, s, [Spawn argv opts]).

Definition console_log (msg : Js.str) (detail : option Js.str) : Promise unit :=
  fun _ s => (Fulfilled tt, s, [ConsoleLog msg detail]).

End P.

Notation "p ;; q" := (P.then_ p (fun _ => q))
  (at level 61, right associativity).

(** ** The filesystem probe (the [useEffect] body) *)

Definition xfs : Js.str := Js.lit "xfs".
Definition btrfs : Js.str := Js.lit "btrfs".

Definition qemu_uri (c : ConnectionName) : Js.str :=
  Js.lit "qemu:///" ++ connection_str c.

Definition domblklist_argv (name : Js.str) (c : ConnectionName) : list Js.str :=
  [Js.lit "virsh"; Js.lit "--connect"; qemu_uri c; Js.lit "domblklist"; name].

Definition df_argv (diskPath : Js.str) : list Js.str :=
  [Js.lit "df"; Js.lit "--output=fstype"; diskPath].

Definition cp_argv (diskPath : Js.str) : list Js.str :=
  [Js.lit "cp"; Js.lit "--reflink=always"; diskPath; diskPath ++ Js.lit ".test"].

Definition rm_argv (diskPath : Js.str) : list Js.str :=
  [Js.lit "rm"; Js.lit "-f"; diskPath ++ Js.lit ".test"].

Definition cp_options (c : ConnectionName) : SpawnOptions :=
  {| superuser := if is_system c then su_try else su_false;
     err_message := true; pty := false |}.

(** The [then] callback of the trial copy and its [catch]. *)
Definition trialCopy (c : ConnectionName) (diskPath fsType : Js.str)
  : Promise unit :=
  P.catch_
    (P.then_ (P.spawn (cp_argv diskPath) (cp_options c)) (fun _ =>
       P.spawn_dropped (rm_argv diskPath) (probe_options c) ;;
       P.set (with_fsInfo {| hasReflink := true; fsType := fsType |}) ;;
       P.set (with_useReflink true)))
    (fun _ =>
       P.set (with_fsInfo {| hasReflink := false; fsType := fsType |})).

(** The [then] callback of the [df] query. *)
Definition onFsOutput (c : ConnectionName) (diskPath fsOutput : Js.str)
  : Promise unit :=
  let fsLines := Js.split_char newline fsOutput in
  if 2 <=? length fsLines then
    let fsType := Js.trim (Js.at_ fsLines 1) in
    if Js.eqb fsType xfs || Js.eqb fsType btrfs then
      trialCopy c diskPath fsType
    else
      P.set (with_fsInfo {| hasReflink := false; fsType := fsType |})
  else P.resolve tt.

(** The [then] callback of the [domblklist] query. *)
Definition onDiskList (c : ConnectionName) (output : Js.str) : Promise unit :=
  let diskPath := findDiskPath output in
  if Js.truthy diskPath then
    P.catch_
      (P.then_ (P.spawn (df_argv diskPath) (probe_options c))
               (onFsOutput c diskPath))
      (fun _ => P.console_log (Js.lit "Failed to get filesystem type") None)
  else P.resolve tt.

Definition probeFileSystem (name : Js.str) (c : ConnectionName) : Promise unit :=
  P.set (with_isCheckingFs true) ;;
  P.finally_
    (P.catch_
       (P.then_ (P.spawn (domblklist_argv name c) (probe_options c))
                (onDiskList c))
       (fun err =>
          P.console_log (Js.lit "Failed to get VM disk path:") (Some err)))
    (P.set (with_isCheckingFs false)).

(** What the run leaves behind. *)
Definition outcome {A} (r : Settled A * State * list Event) : Settled A :=
  fst (fst r).
Definition final {A} (r : Settled A * State * list Event) : State :=
  snd (fst r).
Definition trace {A} (r : Settled A * State * list Event) : list Event :=
  snd r.

(** ** Validation and the clone invoker *)

(** Modelled from the spec: [isEmpty] and [isObjectEmpty] live in
    [src/helpers], which is not part of the sources at hand.  The spec has the
    name "non-empty after trimming" and calls the failure "empty name":
    [isEmpty] holds of the string without code units, [isObjectEmpty] of the
    object without keys. *)
Definition isEmpty (s : Js.str) : bool :=
  match s with
  | [] => true
  | _ :: _ => false
  end.

Definition isObjectEmpty_validation (v : Validation.t) : bool :=
  match Validation.name v with
  | None => true
  | Some _ => false
  end.

Definition isObjectEmpty_error (e : DialogError) : bool :=
  match dialogError e with
  | None => true
  | Some _ => false
  end.

(** [cockpit.gettext] with no translation catalogue loaded. *)
Definition gettext (msgid : Js.str) : Js.str := msgid.

(** [cockpit.format(_("Failed to clone VM $0"), name)]: the first argument
    takes the place of [$0], which ends the template. *)
Definition failedToCloneMessage (name : Js.str) : Js.str :=
  gettext (Js.lit "Failed to clone VM ") ++ name.

Definition validateParams (s : State) : Validation.t :=
  {| Validation.name :=
       if isEmpty (Js.trim (newVmName s))
       then Some (gettext (Js.lit "Name must not be empty"))
       else None |}.

Definition cloneArgs (name : Js.str) (c : ConnectionName) (s : State)
  : list Js.str :=
  [Js.lit "virt-clone"; Js.lit "--connect"; qemu_uri c;
   Js.lit "--original"; name; Js.lit "--name"; newVmName s]
  ++ [if useReflink s && hasReflink (fsInfo s)
      then Js.lit "--reflink" else Js.lit "--auto-clone"].

(** [{ pty: true, ...(connectionName === "system" ? { superuser: "try" } : {}) }] *)
Definition clone_options (c : ConnectionName) : SpawnOptions :=
  {| superuser := if is_system c then su_try else su_absent;
     err_message := false; pty := true |}.

(** [onClone] up to the point where it hands the process to the event loop:
    the new state and what it spawned. *)
Definition onClone (name : Js.str) (c : ConnectionName) (s : State)
  : State * list Event :=
  let validation := validateParams s in
  if negb (isObjectEmpty_validation validation) then
    (with_inProgress false s, [])
  else
    (with_inProgress true s, [Spawn (cloneArgs name c s) (clone_options c)]).

(** The callbacks attached to the clone process. *)
Definition onCloneStream (data : Js.str) (s : State) : State :=
  with_virtCloneOutput data s.

Definition onCloneFulfilled (s : State) : State :=
  with_isOpen false s.

Definition onCloneRejected (name : Js.str) (s : State) : State :=
  with_error {| dialogError := Some (failedToCloneMessage name) |}
             (with_inProgress false s).

(** ** What is rendered *)

Inductive ReflinkGroup :=
| CheckingSupport
| ReflinkCheckbox (isChecked : bool) (detected : Js.str)
| ReflinkNotEnabled (detected : Js.str)
| ReflinkUnsupported (detected : Js.str)
| NoReflinkGroup.

Record View := {
  modalError : option (Js.str * Js.str);  (* dialogError, dialogErrorDetail *)
  nameInvalid : option Js.str;
  reflinkGroup : ReflinkGroup;
  footerOutput : option Js.str;
  cloneIsDisabled : bool;
  cloneIsLoading : bool
}.

Definition render (s : State) : View :=
  let validationFailed := validateParams s in
  {| modalError :=
       match dialogError (error s) with
       | Some msg => if Js.truthy msg then Some (msg, virtCloneOutput s) else None
       | None => None
       end;
     nameInvalid := Validation.name validationFailed;
     reflinkGroup :=
       if isCheckingFs s then CheckingSupport
       else if hasReflink (fsInfo s)
            then ReflinkCheckbox (useReflink s) (fsType (fsInfo s))
       else if Js.eqb (fsType (fsInfo s)) xfs || Js.eqb (fsType (fsInfo s)) btrfs
            then ReflinkNotEnabled (fsType (fsInfo s))
       else if Js.truthy (fsType (fsInfo s))
            then ReflinkUnsupported (fsType (fsInfo s))
       else NoReflinkGroup;
     footerOutput :=
       if isObjectEmpty_error (error s) && Js.truthy (virtCloneOutput s)
       then Some (virtCloneOutput s) else None;
     cloneIsDisabled :=
       inProgress s || negb (isObjectEmpty_validation validationFailed);
     cloneIsLoading := inProgress s |}.

(** ** The dialog as a transition system

    The handlers of the component run one at a time, each to completion, when
    the user acts or when a clone process reports.  [running] counts the
    [virt-clone] processes that were spawned and have not exited; [log]
    holds what [onClone] has spawned (the commands of the probe are in the
    trace of [probeFileSystem]).

    The probe starts as the dialog opens and is pending while [isCheckingFs]
    holds: its last callback clears the flag and nothing sets it again.  Its
    setters overwrite the cells they write, so when the chain settles its
    writes are those of the chain run on the state of that moment; they are
    taken in one step. *)

Record Session := {
  state : State;
  running : nat;
  log : list Event
}.

Inductive Input :=
| ClickClone                      (* the Clone button's onClick *)
| SubmitForm                      (* the form's onSubmit *)
| ChangeName (value : Js.str)     (* the text input's onChange *)
| ToggleReflink (checked : bool)  (* the checkbox's onChange *)
| CloseDialog                     (* Cancel, or the modal's onClose *)
| CloneStream (data : Js.str)     (* the stream callback *)
| CloneExit (success : bool)      (* the clone promise settles *)
| ProbeSettles (h : Host).        (* the probe chain settles on this host *)

Definition openSession (name : Js.str) : Session :=
  {| state := initialState name; running := 0; log := [] |}.

Definition invokeOnClone (name : Js.str) (c : ConnectionName) (x : Session)
  : Session :=
  let '(s', evs) := onClone name c (state x) in
  {| state := s'; running := running x + length evs; log := log x ++ evs |}.

(** [onChange={checked => setUseReflink(checked)}].  The checkbox calls
    [onChange] with the event first and the new checked state second, the
    order the text input's handler [(_, value) => setNewVmName(value)] relies
    on.  The handler stores its first argument, the event: an object, truthy
    whatever the box shows.  [useReflink] is read for its truthiness only
    ([useReflink && fsInfo.hasReflink], [isChecked]), which is what the cell
    of the model holds. *)
Definition onReflinkChange (checked : bool) (s : State) : State :=
  with_useReflink true s.

(** [None]: the input cannot happen in this state (a disabled button, a
    control that is not rendered, no process to report, no probe pending). *)
Definition step (name : Js.str) (c : ConnectionName) (i : Input) (x : Session)
  : option Session :=
  let s := state x in
  match i with
  | ClickClone =>
      if isOpen s && negb (cloneIsDisabled (render s))
      then Some (invokeOnClone name c x) else None
  | SubmitForm =>
      if isOpen s then Some (invokeOnClone name c x) else None
  | ChangeName v =>
      if isOpen s
      then Some {| state := with_newVmName v s;
                   running := running x; log := log x |}
      else None
  | ToggleReflink b =>
      match isOpen s, reflinkGroup (render s) with
      | true, ReflinkCheckbox _ _ =>
          Some {| state := onReflinkChange b s;
                  running := running x; log := log x |}
      | _, _ => None
      end
  | CloseDialog =>
      if isOpen s
      then Some {| state := with_isOpen false s;
                   running := running x; log := log x |}
      else None
  | CloneStream data =>
      match running x with
      | O => None
      | S _ => Some {| state := onCloneStream data s;
                       running := running x; log := log x |}
      end
  | CloneExit success =>
      match running x with
      | O => None
      | S n =>
          Some {| state := if success then onCloneFulfilled s
                           else onCloneRejected name s;
                  running := n; log := log x |}
      end
  | ProbeSettles h =>
      if isCheckingFs s
      then Some {| state := final (probeFileSystem name c h s);
                   running := running x; log := log x |}
      else None
  end.

Fixpoint steps (name : Js.str) (c : ConnectionName) (inputs : list Input)
  (x : Session) : option Session :=
  match inputs with
  | [] => Some x
  | i :: rest =>
      match step name c i x with
      | Some x' => steps name c rest x'
      | None => None
      end
  end.

(** * Vocabulary of the properties *)

(** ** The disk locator *)

(** The locator in the words of the spec: the header line is skipped, and
    the answer is the path field, the second token, of the first row after it
    that has a path. *)
Definition tokens (row : Js.str) : list Js.str := Js.split_ws (Js.trim row).

Definition path_field (row : Js.str) : Js.str := Js.at_ (tokens row) 1.

Definition row_qualifies (row : Js.str) : bool := row_has_path (tokens row).

Definition data_rows (output : Js.str) : list Js.str :=
  tl (Js.split_char newline output).

Definition first_disk_path (output : Js.str) : option Js.str :=
  option_map path_field (find row_qualifies (data_rows output)).

(** A row has a path: at least two tokens, the second neither empty nor the
    placeholder dash. *)
Definition has_path (row : Js.str) : Prop :=
  2 <= length (tokens row)
  /\ path_field row <> [] /\ path_field row <> dash.

(** ** The filesystem prober *)

Definition fsLinesOf (fsOutput : Js.str) : list Js.str :=
  Js.split_char newline fsOutput.

(** The detected type: the second line of the [df] output, trimmed. *)
Definition detectedType (fsOutput : Js.str) : Js.str :=
  Js.trim (Js.at_ (fsLinesOf fsOutput) 1).

Definition isCowType (fsType : Js.str) : bool :=
  Js.eqb fsType xfs || Js.eqb fsType btrfs.

(** The two ways a query of the probe can fail. *)
Definition diskListFails (h : Host) (name : Js.str) (c : ConnectionName) : Prop :=
  exists e, h (domblklist_argv name c) = Rejected e.

Definition typeQueryFails (h : Host) (name : Js.str) (c : ConnectionName) : Prop :=
  exists output e,
    h (domblklist_argv name c) = Fulfilled output
    /\ Js.truthy (findDiskPath output) = true
    /\ h (df_argv (findDiskPath output)) = Rejected e.

Definition defaultFsInfo : FileSystemInfo :=
  {| hasReflink := false; fsType := [] |}.

(** ** Which commands a run started *)

(** The four commands of the probe as events. *)
Definition listDisks (name : Js.str) (c : ConnectionName) : Event :=
  Spawn (domblklist_argv name c) (probe_options c).

Definition queryType (c : ConnectionName) (diskPath : Js.str) : Event :=
  Spawn (df_argv diskPath) (probe_options c).

Definition copyFile (c : ConnectionName) (diskPath : Js.str) : Event :=
  Spawn (cp_argv diskPath) (cp_options c).

Definition removeTestFile (c : ConnectionName) (diskPath : Js.str) : Event :=
  Spawn (rm_argv diskPath) (probe_options c).

Definition command_is (cmd : Js.str) (argv : list Js.str) : bool :=
  match argv with
  | a :: _ => Js.eqb a cmd
  | [] => false
  end.

Definition spawns (cmd : Js.str) (e : Event) : bool :=
  match e with
  | Spawn argv _ => command_is cmd argv
  | ConsoleLog _ _ => false
  end.

Definition attemptsTrialCopy (t : list Event) : bool :=
  existsb (spawns (Js.lit "cp")) t.

Definition removesTestFile (t : list Event) : bool :=
  existsb (spawns (Js.lit "rm")) t.

Definition queriesType (t : list Event) : bool :=
  existsb (spawns (Js.lit "df")) t.

Definition logs (e : Event) : bool :=
  match e with
  | ConsoleLog _ _ => true
  | Spawn _ _ => false
  end.

(** ** Re-entrance *)

Definition isSubmit (i : Input) : bool :=
  match i with
  | SubmitForm => true
  | _ => false
  end.

(** What the Clone button's [isDisabled] maintains when the form's
    [onSubmit] stays out of the picture. *)
Definition guarded (x : Session) : Prop :=
  running x <= 1 /\ (inProgress (state x) = false -> running x = 0).

(** ** Sample hosts and outputs *)

Definition lines_of (ls : list Js.str) : Js.str :=
  concat (List.map (fun l => l ++ [newline]) ls).

Definition sample_vm : Js.str := Js.lit "foo".

Definition sample_path : Js.str := Js.lit "/var/lib/libvirt/images/foo.qcow2".

(** What [virsh domblklist] prints for a machine with a CD drive without
    medium and one disk. *)
Definition sample_disk_list : Js.str :=
  lines_of [Js.lit " Target   Source";
            Js.lit "------------------------------------------------";
            Js.lit " sda      -";
            Js.lit " vda      /var/lib/libvirt/images/foo.qcow2";
            Js.lit ""].

(** A host described by its answers to the four commands of the probe. *)
Definition host_of (virsh df cp : Settled Js.str) : Host :=
  fun argv =>
    if command_is (Js.lit "virsh") argv then virsh
    else if command_is (Js.lit "df") argv then df
    else if command_is (Js.lit "cp") argv then cp
    else Fulfilled [].

Definition failure : Settled Js.str := Rejected (Js.lit "exited with code 1").

Definition df_output (ty : Js.str) : Js.str := lines_of [Js.lit "Type"; ty].

Definition blank_session : Session :=
  {| state := with_inProgress true
                (with_newVmName (Js.lit "  ") (initialState sample_vm));
     running := 1;
     log := [] |}.

Definition cloning_session : Session :=
  {| state := with_inProgress true (initialState sample_vm);
     running := 1;
     log := [Spawn (cloneArgs sample_vm system (initialState sample_vm))
                   (clone_options system)] |}.


(** ** The ways a probe can go *)

(** The seven courses of the chain, by what the host answers. *)
Inductive ProbeRun (name : Js.str) (c : ConnectionName) (h : Host) (s : State)
  : Settled unit * State * list Event -> Prop :=
| DiskListRejected (e : Js.str) :
    h (domblklist_argv name c) = Rejected e ->
    ProbeRun name c h s
      (Fulfilled tt, with_isCheckingFs false s,
       [listDisks name c;
        ConsoleLog (Js.lit "Failed to get VM disk path:") (Some e)])
| NoDisk (output : Js.str) :
    h (domblklist_argv name c) = Fulfilled output ->
    findDiskPath output = [] ->
    ProbeRun name c h s
      (Fulfilled tt, with_isCheckingFs false s, [listDisks name c])
| TypeQueryRejected (output e : Js.str) :
    h (domblklist_argv name c) = Fulfilled output ->
    Js.truthy (findDiskPath output) = true ->
    h (df_argv (findDiskPath output)) = Rejected e ->
    ProbeRun name c h s
      (Fulfilled tt, with_isCheckingFs false s,
       [listDisks name c; queryType c (findDiskPath output);
        ConsoleLog (Js.lit "Failed to get filesystem type") None])
| ShortTypeOutput (output fsOutput : Js.str) :
    h (domblklist_argv name c) = Fulfilled output ->
    Js.truthy (findDiskPath output) = true ->
    h (df_argv (findDiskPath output)) = Fulfilled fsOutput ->
    length (fsLinesOf fsOutput) < 2 ->
    ProbeRun name c h s
      (Fulfilled tt, with_isCheckingFs false s,
       [listDisks name c; queryType c (findDiskPath output)])
| OtherType (output fsOutput : Js.str) :
    h (domblklist_argv name c) = Fulfilled output ->
    Js.truthy (findDiskPath output) = true ->
    h (df_argv (findDiskPath output)) = Fulfilled fsOutput ->
    2 <= length (fsLinesOf fsOutput) ->
    isCowType (detectedType fsOutput) = false ->
    ProbeRun name c h s
      (Fulfilled tt,
       with_isCheckingFs false
         (with_fsInfo
            {| hasReflink := false; fsType := detectedType fsOutput |} s),
       [listDisks name c; queryType c (findDiskPath output)])
| CopyFulfilled (output fsOutput out : Js.str) :
    h (domblklist_argv name c) = Fulfilled output ->
    Js.truthy (findDiskPath output) = true ->
    h (df_argv (findDiskPath output)) = Fulfilled fsOutput ->
    2 <= length (fsLinesOf fsOutput) ->
    isCowType (detectedType fsOutput) = true ->
    h (cp_argv (findDiskPath output)) = Fulfilled out ->
    ProbeRun name c h s
      (Fulfilled tt,
       with_isCheckingFs false
         (with_useReflink true
            (with_fsInfo
               {| hasReflink := true; fsType := detectedType fsOutput |} s)),
       [listDisks name c; queryType c (findDiskPath output);
        copyFile c (findDiskPath output);
        removeTestFile c (findDiskPath output)])
| CopyRejected (output fsOutput e : Js.str) :
    h (domblklist_argv name c) = Fulfilled output ->
    Js.truthy (findDiskPath output) = true ->
    h (df_argv (findDiskPath output)) = Fulfilled fsOutput ->
    2 <= length (fsLinesOf fsOutput) ->
    isCowType (detectedType fsOutput) = true ->
    h (cp_argv (findDiskPath output)) = Rejected e ->
    ProbeRun name c h s
      (Fulfilled tt,
       with_isCheckingFs false
         (with_fsInfo
            {| hasReflink := false; fsType := detectedType fsOutput |} s),
       [listDisks name c; queryType c (findDiskPath output);
        copyFile c (findDiskPath output)]).

(** The commands among the events, in order. *)
Definition commands (t : list Event) : list Event :=
  filter (fun e => negb (logs e)) t.

Definition optionsOf (e : Event) : option SpawnOptions :=
  match e with
  | Spawn _ opts => Some opts
  | ConsoleLog _ _ => None
  end.

(** ** Names and flags *)

(** Empty, or white space throughout. *)
Definition blank (s : Js.str) : bool := forallb Js.isWhiteSpace s.

Definition reflinkFlag : Js.str := Js.lit "--reflink".
Definition autoCloneFlag : Js.str := Js.lit "--auto-clone".

(** A [virt-clone] command of this dialog: the source machine as
    [--original], some name that is not blank as [--name], and one of the
    two copy flags. *)
Definition isCloneOf (name : Js.str) (c : ConnectionName) (e : Event) : Prop :=
  exists newName flag,
    e = Spawn [Js.lit "virt-clone"; Js.lit "--connect"; qemu_uri c;
               Js.lit "--original"; name; Js.lit "--name"; newName; flag]
              (clone_options c)
    /\ blank newName = false
    /\ (flag = reflinkFlag \/ flag = autoCloneFlag).

Definition isFullCopyCloneOf (name : Js.str) (c : ConnectionName) (e : Event)
  : Prop :=
  exists newName,
    e = Spawn [Js.lit "virt-clone"; Js.lit "--connect"; qemu_uri c;
               Js.lit "--original"; name; Js.lit "--name"; newName;
               autoCloneFlag]
              (clone_options c).

(** ** Hosts that differ in one answer *)

Fixpoint argv_eqb (a b : list Js.str) : bool :=
  match a, b with
  | [], [] => true
  | x :: a', y :: b' => Js.eqb x y && argv_eqb a' b'
  | _, _ => false
  end.

(** The host that gives [answer] to the command [argv] and the answers of
    [h] to every other command. *)
Definition answering (h : Host) (argv : list Js.str) (answer : Settled Js.str)
  : Host :=
  fun query => if argv_eqb query argv then answer else h query.

(** ** The output of a clone *)

(** All that the clone command has streamed, piece after piece. *)
Definition streamedOutput (chunks : list Js.str) : Js.str := concat chunks.

(** The error a failed clone leaves. *)
Definition cloneFailedShown (name : Js.str) (s : State) : Prop :=
  dialogError (error s) = Some (failedToCloneMessage name).

(** * Properties *)

(** ** Strings *)

Example split_ws_inner_runs :
  Js.split_ws (Js.lit "vda      /img/a.qcow2")
  = [Js.lit "vda"; Js.lit "/img/a.qcow2"].
Proof. reflexivity. Qed.

Example split_ws_outer_runs :
  Js.split_ws (Js.lit " a  b ") = [[]; Js.lit "a"; Js.lit "b"; []].
Proof. reflexivity. Qed.

Example split_ws_empty : Js.split_ws [] = [[]].
Proof. reflexivity. Qed.

Example split_char_trailing_newline :
  Js.split_char newline (lines_of [Js.lit "Type"; Js.lit "xfs"])
  = [Js.lit "Type"; Js.lit "xfs"; []].
Proof. reflexivity. Qed.

Example trim_both_ends :
  Js.trim (9 :: Js.lit "  foo bar " ++ [160; 0x2003; 10])%N = Js.lit "foo bar".
Proof. reflexivity. Qed.

Example findDiskPath_sample : findDiskPath sample_disk_list = sample_path.
Proof. reflexivity. Qed.

Example findDiskPath_no_disk :
  findDiskPath (lines_of [Js.lit " Target   Source"; Js.lit "-----";
                          Js.lit " sda      -"])
  = [].
Proof. reflexivity. Qed.

(** The header line is never looked at, even when it reads like a row. *)
Example findDiskPath_skips_header :
  findDiskPath (lines_of [Js.lit "vda /img/a.qcow2"; Js.lit "vdb /img/b.qcow2"])
  = Js.lit "/img/b.qcow2".
Proof. reflexivity. Qed.

Lemma str_eqb_eq (a b : Js.str) : Js.eqb a b = true <-> a = b.
Proof.
  revert b; induction a as [|x a IH]; intros [|y b]; simpl;
    try (split; intro H; [discriminate H | discriminate H || reflexivity]);
    try (split; reflexivity).
  rewrite andb_true_iff, N.eqb_eq, IH.
  split; [intros [-> ->]; reflexivity | intro H; injection H; auto].
Qed.

Lemma str_eqb_neq (a b : Js.str) : Js.eqb a b = false <-> a <> b.
Proof.
  rewrite <- str_eqb_eq. destruct (Js.eqb a b); split; congruence.
Qed.

Lemma truthy_nonempty (s : Js.str) : Js.truthy s = true <-> s <> [].
Proof. destruct s; simpl; split; congruence. Qed.

Lemma split_char_length (sep : Js.char) (s : Js.str) :
  1 <= length (Js.split_char sep s).
Proof.
  induction s as [|c r IH]; simpl; [lia|].
  destruct (c =? sep)%N; simpl; [lia|].
  destruct (Js.split_char sep r); simpl in *; lia.
Qed.

Lemma push_front_length (ch : Js.char) (pieces : list Js.str) :
  pieces <> [] -> length (Js.push_front ch pieces) = length pieces.
Proof. destruct pieces; [contradiction | reflexivity]. Qed.

(** Fewer than two lines: the string holds no separator. *)
Lemma split_char_short (sep : Js.char) (s : Js.str) :
  length (Js.split_char sep s) < 2 <-> ~ In sep s.
Proof.
  induction s as [|ch r IH]; simpl.
  - split; [tauto | lia].
  - pose proof (split_char_length sep r) as L.
    destruct (N.eqb_spec ch sep) as [->|Hne]; simpl.
    + split; [lia | tauto].
    + rewrite push_front_length by (intro E; rewrite E in L; simpl in L; lia).
      rewrite IH. split; [intros H [E|E]; auto | tauto].
Qed.

(** ** The disk locator *)

Lemma skipn_cons_nth {A} (d : A) (l : list A) (i : nat) :
  i < length l -> skipn i l = nth i l d :: skipn (S i) l.
Proof.
  revert i; induction l as [|a l IH]; intros [|i] H; simpl in *;
    try lia; [reflexivity|].
  apply IH; lia.
Qed.

(** The loop, started at line [i] with enough fuel, finds what [find] finds
    in the lines from [i] on. *)
Lemma scan_lines_find (lines : list Js.str) :
  forall fuel i, length lines <= fuel + i ->
    scan_lines fuel i lines =
    match find row_qualifies (skipn i lines) with
    | Some row => path_field row
    | None => []
    end.
Proof.
  induction fuel as [|fuel IH]; intros i Hfuel; simpl.
  - rewrite skipn_all2 by lia. reflexivity.
  - destruct (Nat.ltb_spec i (length lines)) as [Hi|Hi].
    + rewrite (skipn_cons_nth ([] : Js.str) lines i Hi). simpl.
      unfold row_qualifies at 1, tokens, Js.at_ at 1.
      destruct (row_has_path _) eqn:E.
      * reflexivity.
      * apply IH; lia.
    + rewrite skipn_all2 by lia. reflexivity.
Qed.

Lemma findDiskPath_find (output : Js.str) :
  findDiskPath output =
  match first_disk_path output with
  | Some p => p
  | None => []
  end.
Proof.
  unfold findDiskPath, first_disk_path, data_rows.
  rewrite scan_lines_find by lia.
  destruct (Js.split_char newline output) as [|hdr rows]; simpl;
    [reflexivity|].
  destruct (find row_qualifies rows); reflexivity.
Qed.

Lemma row_qualifies_spec (row : Js.str) :
  row_qualifies row = true <-> has_path row.
Proof.
  unfold row_qualifies, row_has_path, has_path, path_field.
  rewrite !andb_true_iff, negb_true_iff, Nat.leb_le, truthy_nonempty,
    str_eqb_neq.
  tauto.
Qed.

Lemma row_qualifies_false (row : Js.str) :
  row_qualifies row = false <-> ~ has_path row.
Proof.
  rewrite <- row_qualifies_spec. destruct (row_qualifies row); split;
    congruence.
Qed.

Lemma find_at_first {A} (f : A -> bool) (pre post : list A) (x : A) :
  Forall (fun y => f y = false) pre -> f x = true ->
  find f (pre ++ x :: post) = Some x.
Proof.
  intros Hpre Hx. induction Hpre as [|y pre Hy _ IH]; simpl.
  - rewrite Hx. reflexivity.
  - rewrite Hy. exact IH.
Qed.

Lemma find_none_iff {A} (f : A -> bool) (l : list A) :
  find f l = None <-> forall y, In y l -> f y = false.
Proof.
  induction l as [|a l IH]; simpl.
  - split; [intros _ y [] | reflexivity].
  - destruct (f a) eqn:E.
    + split; [discriminate|]. intro H. rewrite (H a (or_introl eq_refl)) in E.
      discriminate E.
    + rewrite IH. split.
      * intros H y [<-|Hy]; auto.
      * intros H y Hy. apply H. right. exact Hy.
Qed.

(** ** Runs of the probe

    One equation per way the chain can go: what it returns, the state it
    leaves and the events it causes, in order. *)

Lemma isCowType_spec (fsType : Js.str) :
  isCowType fsType = true <-> fsType = xfs \/ fsType = btrfs.
Proof. unfold isCowType. rewrite orb_true_iff, !str_eqb_eq. tauto. Qed.

Ltac unfold_chain :=
  cbv beta iota zeta delta
    [probeFileSystem onDiskList onFsOutput trialCopy
     P.then_ P.catch_ P.finally_ P.set P.spawn P.spawn_dropped
     P.console_log P.resolve].

Ltac feed H := rewrite H; cbv beta iota.

Section ProbeRuns.

Variable name : Js.str.
Variable c : ConnectionName.
Variable h : Host.
Variable s : State.

Lemma run_disk_list_rejected (e : Js.str) :
  h (domblklist_argv name c) = Rejected e ->
  probeFileSystem name c h s =
  (Fulfilled tt, with_isCheckingFs false s,
   [listDisks name c;
    ConsoleLog (Js.lit "Failed to get VM disk path:") (Some e)]).
Proof. intro Hv. unfold_chain. feed Hv. reflexivity. Qed.

Lemma run_no_disk (output : Js.str) :
  h (domblklist_argv name c) = Fulfilled output ->
  findDiskPath output = [] ->
  probeFileSystem name c h s =
  (Fulfilled tt, with_isCheckingFs false s, [listDisks name c]).
Proof. intros Hv Hp. unfold_chain. feed Hv. feed Hp. reflexivity. Qed.

Section WithDisk.

Variable output : Js.str.
Hypothesis Hlist : h (domblklist_argv name c) = Fulfilled output.
Hypothesis Hpath : Js.truthy (findDiskPath output) = true.

Lemma run_type_query_rejected (e : Js.str) :
  h (df_argv (findDiskPath output)) = Rejected e ->
  probeFileSystem name c h s =
  (Fulfilled tt, with_isCheckingFs false s,
   [listDisks name c; queryType c (findDiskPath output);
    ConsoleLog (Js.lit "Failed to get filesystem type") None]).
Proof.
  intro Hdf. unfold_chain. feed Hlist. feed Hpath. feed Hdf.
  reflexivity.
Qed.

Section WithType.

Variable fsOutput : Js.str.
Hypothesis Hdf : h (df_argv (findDiskPath output)) = Fulfilled fsOutput.

Lemma run_short_output :
  length (fsLinesOf fsOutput) < 2 ->
  probeFileSystem name c h s =
  (Fulfilled tt, with_isCheckingFs false s,
   [listDisks name c; queryType c (findDiskPath output)]).
Proof.
  intro Hlen. apply Nat.leb_gt in Hlen. unfold fsLinesOf in Hlen.
  unfold_chain. feed Hlist. feed Hpath. feed Hdf. feed Hlen. reflexivity.
Qed.

Hypothesis Hlen : 2 <= length (fsLinesOf fsOutput).

Lemma run_other_type :
  isCowType (detectedType fsOutput) = false ->
  probeFileSystem name c h s =
  (Fulfilled tt,
   with_isCheckingFs false
     (with_fsInfo
        {| hasReflink := false; fsType := detectedType fsOutput |} s),
   [listDisks name c; queryType c (findDiskPath output)]).
Proof.
  intro Hcow. apply Nat.leb_le in Hlen.
  unfold isCowType, detectedType, fsLinesOf in *.
  unfold_chain. feed Hlist. feed Hpath. feed Hdf. feed Hlen. feed Hcow.
  reflexivity.
Qed.

Lemma run_copy_fulfilled (out : Js.str) :
  isCowType (detectedType fsOutput) = true ->
  h (cp_argv (findDiskPath output)) = Fulfilled out ->
  probeFileSystem name c h s =
  (Fulfilled tt,
   with_isCheckingFs false
     (with_useReflink true
        (with_fsInfo
           {| hasReflink := true; fsType := detectedType fsOutput |} s)),
   [listDisks name c; queryType c (findDiskPath output);
    copyFile c (findDiskPath output);
    removeTestFile c (findDiskPath output)]).
Proof.
  intros Hcow Hcp. apply Nat.leb_le in Hlen.
  unfold isCowType, detectedType, fsLinesOf in *.
  unfold_chain. feed Hlist. feed Hpath. feed Hdf. feed Hlen. feed Hcow.
  feed Hcp. reflexivity.
Qed.

Lemma run_copy_rejected (e : Js.str) :
  isCowType (detectedType fsOutput) = true ->
  h (cp_argv (findDiskPath output)) = Rejected e ->
  probeFileSystem name c h s =
  (Fulfilled tt,
   with_isCheckingFs false
     (with_fsInfo
        {| hasReflink := false; fsType := detectedType fsOutput |} s),
   [listDisks name c; queryType c (findDiskPath output);
    copyFile c (findDiskPath output)]).
Proof.
  intros Hcow Hcp. apply Nat.leb_le in Hlen.
  unfold isCowType, detectedType, fsLinesOf in *.
  unfold_chain. feed Hlist. feed Hpath. feed Hdf. feed Hlen. feed Hcow.
  feed Hcp. reflexivity.
Qed.

End WithType.
End WithDisk.
End ProbeRuns.

Lemma truthy_nonempty_false (s : Js.str) : Js.truthy s = false -> s = [].
Proof. destruct s; [reflexivity | discriminate]. Qed.

(** Whatever the host answers, the chain takes one of the seven courses. *)
Lemma probe_run_inv (name : Js.str) (c : ConnectionName) (h : Host) (s : State) :
  ProbeRun name c h s (probeFileSystem name c h s).
Proof.
  destruct (h (domblklist_argv name c)) as [output|e] eqn:Hlist.
  2:{ rewrite (run_disk_list_rejected name c h s e Hlist).
      exact (DiskListRejected name c h s e Hlist). }
  destruct (Js.truthy (findDiskPath output)) eqn:Hpath.
  2:{ apply truthy_nonempty_false in Hpath.
      rewrite (run_no_disk name c h s output Hlist Hpath).
      exact (NoDisk name c h s output Hlist Hpath). }
  destruct (h (df_argv (findDiskPath output))) as [fsOutput|e] eqn:Hdf.
  2:{ rewrite (run_type_query_rejected name c h s output Hlist Hpath e Hdf).
      exact (TypeQueryRejected name c h s output e Hlist Hpath Hdf). }
  destruct (Nat.lt_ge_cases (length (fsLinesOf fsOutput)) 2) as [Hlen|Hlen].
  { rewrite (run_short_output name c h s output Hlist Hpath fsOutput Hdf Hlen).
    exact (ShortTypeOutput name c h s output fsOutput Hlist Hpath Hdf Hlen). }
  destruct (isCowType (detectedType fsOutput)) eqn:Hcow.
  2:{ rewrite (run_other_type name c h s output Hlist Hpath fsOutput
                 Hdf Hlen Hcow).
      exact (OtherType name c h s output fsOutput Hlist Hpath Hdf Hlen Hcow). }
  destruct (h (cp_argv (findDiskPath output))) as [out|e] eqn:Hcp.
  - rewrite (run_copy_fulfilled name c h s output Hlist Hpath fsOutput
               Hdf Hlen out Hcow Hcp).
    exact (CopyFulfilled name c h s output fsOutput out Hlist Hpath Hdf
             Hlen Hcow Hcp).
  - rewrite (run_copy_rejected name c h s output Hlist Hpath fsOutput
               Hdf Hlen e Hcow Hcp).
    exact (CopyRejected name c h s output fsOutput e Hlist Hpath Hdf
             Hlen Hcow Hcp).
Qed.

(** The state a run leaves is the state it found with three cells written. *)
Lemma probe_writes (name : Js.str) (c : ConnectionName) (h : Host) (s : State) :
  exists info checked,
    final (probeFileSystem name c h s)
    = with_isCheckingFs false (with_useReflink checked (with_fsInfo info s)).
Proof.
  destruct (probe_run_inv name c h s);
    try (exists (fsInfo s), (useReflink s); reflexivity).
  - exists {| hasReflink := false; fsType := detectedType fsOutput |},
      (useReflink s). reflexivity.
  - exists {| hasReflink := true; fsType := detectedType fsOutput |}, true.
    reflexivity.
  - exists {| hasReflink := false; fsType := detectedType fsOutput |},
      (useReflink s). reflexivity.
Qed.

(** ** The claims about the probe *)

(** C1: the disk locator skips the header line and returns the path field
    (the second token) of the first later row that has at least two tokens
    and a path token that is neither empty nor the dash; when no row
    qualifies it returns no path and the probe queries no filesystem. *)
Theorem locator_returns_first_path
  (name : Js.str) (c : ConnectionName) (h : Host) (s : State)
  (output : Js.str) :
  h (domblklist_argv name c) = Fulfilled output ->
  (forall header before row after,
      Js.split_char newline output = header :: before ++ row :: after ->
      Forall (fun r => ~ has_path r) before ->
      has_path row ->
      findDiskPath output = path_field row)
  /\ ((forall header rows,
          Js.split_char newline output = header :: rows ->
          Forall (fun r => ~ has_path r) rows) ->
      findDiskPath output = []
      /\ queriesType (trace (probeFileSystem name c h s)) = false
      /\ trace (probeFileSystem name c h s) = [listDisks name c]).
Proof.
  intro Hlist.
  pose proof (findDiskPath_find output) as Hfind.
  unfold first_disk_path, data_rows in Hfind.
  split.
  - intros header before row after Hlines Hbefore Hrow.
    rewrite Hlines in Hfind. simpl in Hfind.
    rewrite (find_at_first row_qualifies before after row) in Hfind.
    + exact Hfind.
    + eapply Forall_impl; [|exact Hbefore].
      intros r Hr. apply row_qualifies_false. exact Hr.
    + apply row_qualifies_spec. exact Hrow.
  - intro Hnone.
    assert (Hempty : findDiskPath output = []).
    { destruct (Js.split_char newline output) as [|header rows] eqn:E.
      - exact Hfind.
      - simpl in Hfind.
        assert (Hf : find row_qualifies rows = None).
        { apply find_none_iff. intros r Hr. apply row_qualifies_false.
          exact (proj1 (Forall_forall _ _) (Hnone header rows eq_refl) r Hr). }
        rewrite Hf in Hfind. exact Hfind. }
    rewrite (run_no_disk name c h s output Hlist Hempty).
    repeat split; auto.
Qed.

Lemma locator_returns_first_path_witness :
  let h := host_of (Fulfilled sample_disk_list) failure failure in
  h (domblklist_argv sample_vm system) = Fulfilled sample_disk_list
  /\ findDiskPath sample_disk_list = sample_path.
Proof.
  intro h. split; [reflexivity|].
  refine (proj1 (locator_returns_first_path sample_vm system h
                   (initialState sample_vm) sample_disk_list eq_refl)
            (Js.lit " Target   Source")
            [Js.lit "------------------------------------------------";
             Js.lit " sda      -"]
            (Js.lit " vda      /var/lib/libvirt/images/foo.qcow2")
            [[]; []] eq_refl _ _).
  - repeat constructor; intros (Hlen & Hne & Hdash); vm_compute in *;
      solve [lia | congruence].
  - repeat split; vm_compute; solve [lia | discriminate].
Defined.

(** C2: with a disk path found and a type detected, the probe starts the
    trial reflink copy exactly when the detected type is [xfs] or [btrfs];
    for any other type, the empty one included, it starts none. *)
Theorem trial_copy_iff_cow_type
  (name : Js.str) (c : ConnectionName) (h : Host) (s : State)
  (output fsOutput : Js.str) :
  h (domblklist_argv name c) = Fulfilled output ->
  Js.truthy (findDiskPath output) = true ->
  h (df_argv (findDiskPath output)) = Fulfilled fsOutput ->
  2 <= length (fsLinesOf fsOutput) ->
  let t := trace (probeFileSystem name c h s) in
  let p := findDiskPath output in
  (attemptsTrialCopy t = true <->
   detectedType fsOutput = xfs \/ detectedType fsOutput = btrfs)
  /\ (In (Spawn (cp_argv p) (cp_options c)) t <->
      detectedType fsOutput = xfs \/ detectedType fsOutput = btrfs)
  /\ (detectedType fsOutput = [] -> attemptsTrialCopy t = false).
Proof.
  intros Hlist Hpath Hdf Hlen t p.
  rewrite <- isCowType_spec.
  assert (Hnocopy : forall argv o,
             ~ In (Spawn (cp_argv p) (cp_options c))
                  [Spawn (domblklist_argv name c) o; Spawn (df_argv p) argv]).
  { intros argv o [H|[H|[]]]; discriminate H. }
  destruct (isCowType (detectedType fsOutput)) eqn:Hcow.
  - assert (Hin : attemptsTrialCopy t = true /\
                  In (Spawn (cp_argv p) (cp_options c)) t).
    { subst t p. destruct (h (cp_argv (findDiskPath output))) as [out|e] eqn:Hcp.
      + rewrite (run_copy_fulfilled name c h s output Hlist Hpath
                   fsOutput Hdf Hlen out Hcow Hcp).
        split; [reflexivity | simpl; auto].
      + rewrite (run_copy_rejected name c h s output Hlist Hpath
                   fsOutput Hdf Hlen e Hcow Hcp).
        split; [reflexivity | simpl; auto]. }
    destruct Hin as [Ha Hi]. repeat split; auto.
    intro Hty. rewrite Hty in Hcow. discriminate Hcow.
  - subst t.
    rewrite (run_other_type name c h s output Hlist Hpath fsOutput Hdf Hlen Hcow).
    unfold listDisks, queryType.
    assert (Ha : attemptsTrialCopy
                   [Spawn (domblklist_argv name c) (probe_options c);
                    Spawn (df_argv (findDiskPath output)) (probe_options c)]
                 = false) by reflexivity.
    unfold trace, snd. rewrite Ha.
    repeat split; try discriminate; auto.
    intro H. exfalso. exact (Hnocopy _ _ H).
Qed.

Lemma trial_copy_iff_cow_type_witness :
  let h := host_of (Fulfilled sample_disk_list)
                   (Fulfilled (df_output (Js.lit "ext4"))) failure in
  attemptsTrialCopy
    (trace (probeFileSystem sample_vm system h (initialState sample_vm)))
  = true <-> Js.lit "ext4" = xfs \/ Js.lit "ext4" = btrfs.
Proof.
  intro h.
  refine (proj1 (trial_copy_iff_cow_type sample_vm system h
                   (initialState sample_vm) sample_disk_list
                   (df_output (Js.lit "ext4"))
                   eq_refl eq_refl eq_refl _)).
  vm_compute. lia.
Defined.

(** C3: when the trial copy succeeds the probe result is
    [{hasReflink: true, fsType}] and [useReflink] becomes true; when it fails
    the result is [{hasReflink: false, fsType}] with the detected type
    recorded, and [useReflink] is as it was. *)
Theorem trial_copy_result
  (name : Js.str) (c : ConnectionName) (h : Host) (s : State)
  (output fsOutput : Js.str) :
  h (domblklist_argv name c) = Fulfilled output ->
  Js.truthy (findDiskPath output) = true ->
  h (df_argv (findDiskPath output)) = Fulfilled fsOutput ->
  2 <= length (fsLinesOf fsOutput) ->
  detectedType fsOutput = xfs \/ detectedType fsOutput = btrfs ->
  let s' := final (probeFileSystem name c h s) in
  match h (cp_argv (findDiskPath output)) with
  | Fulfilled _ =>
      fsInfo s' = {| hasReflink := true; fsType := detectedType fsOutput |}
      /\ useReflink s' = true
  | Rejected _ =>
      fsInfo s' = {| hasReflink := false; fsType := detectedType fsOutput |}
      /\ useReflink s' = useReflink s
  end.
Proof.
  intros Hlist Hpath Hdf Hlen Hcow s'. apply isCowType_spec in Hcow.
  subst s'.
  destruct (h (cp_argv (findDiskPath output))) as [out|e] eqn:Hcp.
  - rewrite (run_copy_fulfilled name c h s output Hlist Hpath
               fsOutput Hdf Hlen out Hcow Hcp).
    split; reflexivity.
  - rewrite (run_copy_rejected name c h s output Hlist Hpath
               fsOutput Hdf Hlen e Hcow Hcp).
    split; reflexivity.
Qed.

Lemma trial_copy_result_witness :
  let h := host_of (Fulfilled sample_disk_list)
                   (Fulfilled (df_output xfs)) failure in
  let s' := final (probeFileSystem sample_vm system h
                     (initialState sample_vm)) in
  fsInfo s' = {| hasReflink := false; fsType := xfs |}
  /\ useReflink s' = false.
Proof.
  intros h s'.
  refine (trial_copy_result sample_vm system h (initialState sample_vm)
            sample_disk_list (df_output xfs)
            eq_refl eq_refl eq_refl _ (or_introl eq_refl)).
  vm_compute. lia.
Defined.

(** C4 as stated fails: on a host where the trial copy is refused, the copy
    is started and no removal of the [.test] file follows. *)
Lemma no_cleanup_after_failed_copy :
  let h := host_of (Fulfilled sample_disk_list)
                   (Fulfilled (df_output xfs)) failure in
  let t := trace (probeFileSystem sample_vm system h
                    (initialState sample_vm)) in
  t = [Spawn (domblklist_argv sample_vm system) (probe_options system);
       Spawn (df_argv sample_path) (probe_options system);
       Spawn (cp_argv sample_path) (cp_options system)]
  /\ In (Spawn (cp_argv sample_path) (cp_options system)) t
  /\ removesTestFile t = false
  /\ ~ In (Spawn (rm_argv sample_path) (probe_options system)) t.
Proof.
  intros h t.
  assert (Ht : t = [Spawn (domblklist_argv sample_vm system) (probe_options system);
                    Spawn (df_argv sample_path) (probe_options system);
                    Spawn (cp_argv sample_path) (cp_options system)])
    by (vm_compute; reflexivity).
  rewrite Ht. repeat split.
  - simpl; auto.
  - intros [H|[H|[H|[]]]]; vm_compute in H; discriminate H.
Qed.

(** C4, amended: the removal of the [.test] file is started from the
    success callback of the trial copy.  When the copy succeeds, [rm -f] of
    the sibling is the next command after it, and its result is not waited
    for: how the run settles, the state it leaves and the commands it starts
    are the same whatever the host answers to the [rm].  When the copy
    fails, no removal is started. *)
Theorem cleanup_follows_successful_copy
  (name : Js.str) (c : ConnectionName) (h : Host) (s : State)
  (output fsOutput : Js.str) :
  h (domblklist_argv name c) = Fulfilled output ->
  Js.truthy (findDiskPath output) = true ->
  h (df_argv (findDiskPath output)) = Fulfilled fsOutput ->
  2 <= length (fsLinesOf fsOutput) ->
  detectedType fsOutput = xfs \/ detectedType fsOutput = btrfs ->
  let t := trace (probeFileSystem name c h s) in
  let p := findDiskPath output in
  match h (cp_argv p) with
  | Fulfilled _ =>
      (exists before,
          t = before ++ [Spawn (cp_argv p) (cp_options c);
                         Spawn (rm_argv p) (probe_options c)]
          /\ attemptsTrialCopy before = false)
      /\ (forall answer,
             probeFileSystem name c (answering h (rm_argv p) answer) s
             = probeFileSystem name c h s)
      /\ (forall e,
             let r := probeFileSystem name c
                        (answering h (rm_argv p) (Rejected e)) s in
             outcome r = Fulfilled tt
             /\ fsInfo (final r)
                = {| hasReflink := true; fsType := detectedType fsOutput |}
             /\ existsb logs (trace r) = false)
  | Rejected _ =>
      removesTestFile t = false
  end.
Proof.
  intros Hlist Hpath Hdf Hlen Hcow t p. apply isCowType_spec in Hcow.
  subst t p.
  destruct (h (cp_argv (findDiskPath output))) as [out|e] eqn:Hcp.
  - assert (Hrun : forall answer,
               probeFileSystem name c
                 (answering h (rm_argv (findDiskPath output)) answer) s
               = (Fulfilled tt,
                  with_isCheckingFs false
                    (with_useReflink true
                       (with_fsInfo
                          {| hasReflink := true;
                             fsType := detectedType fsOutput |} s)),
                  [listDisks name c; queryType c (findDiskPath output);
                   copyFile c (findDiskPath output);
                   removeTestFile c (findDiskPath output)])).
    { intro answer.
      apply (run_copy_fulfilled name c _ s output) with (out := out);
        try assumption;
        unfold answering; cbn [argv_eqb domblklist_argv df_argv cp_argv
                                 rm_argv];
        match goal with
        | |- context [Js.eqb ?a ?b && _] =>
            change (Js.eqb a b) with false
        end; cbn [andb]; assumption. }
    rewrite (run_copy_fulfilled name c h s output Hlist Hpath
               fsOutput Hdf Hlen out Hcow Hcp).
    split; [|split].
    + exists [Spawn (domblklist_argv name c) (probe_options c);
              Spawn (df_argv (findDiskPath output)) (probe_options c)].
      split; reflexivity.
    + intro answer. apply Hrun.
    + intros e0 r. subst r. rewrite Hrun. repeat split; reflexivity.
  - rewrite (run_copy_rejected name c h s output Hlist Hpath
               fsOutput Hdf Hlen e Hcow Hcp).
    reflexivity.
Qed.

Lemma cleanup_follows_successful_copy_witness :
  let h := host_of (Fulfilled sample_disk_list)
                   (Fulfilled (df_output btrfs)) (Fulfilled []) in
  let refused := answering h (rm_argv sample_path) failure in
  (exists before,
      trace (probeFileSystem sample_vm session h (initialState sample_vm)) =
      before ++ [Spawn (cp_argv sample_path) (cp_options session);
                 Spawn (rm_argv sample_path) (probe_options session)]
      /\ attemptsTrialCopy before = false)
  /\ refused (rm_argv sample_path) = failure
  /\ probeFileSystem sample_vm session refused (initialState sample_vm)
     = probeFileSystem sample_vm session h (initialState sample_vm).
Proof.
  intros h refused.
  assert (Hlen : 2 <= length (fsLinesOf (df_output btrfs)))
    by (vm_compute; lia).
  pose proof (cleanup_follows_successful_copy sample_vm session h
                (initialState sample_vm) sample_disk_list (df_output btrfs)
                eq_refl eq_refl eq_refl Hlen (or_intror eq_refl))
    as (Hafter & Hsame & _).
  split; [exact Hafter|]. split; [reflexivity|].
  exact (Hsame failure).
Defined.

(** C8: when the disk-list query or the filesystem-type query fails, the
    failure is caught and logged, the chain still fulfils, the probe result
    is what it was before the probe (the default [{hasReflink: false,
    fsType: ''}] when the dialog opens), no trial copy is started and the
    checking flag is cleared. *)
Theorem query_failure_leaves_default
  (name : Js.str) (c : ConnectionName) (h : Host) (s : State) :
  diskListFails h name c \/ typeQueryFails h name c ->
  let r := probeFileSystem name c h s in
  outcome r = Fulfilled tt
  /\ final r = with_isCheckingFs false s
  /\ fsInfo (final r) = fsInfo s
  /\ isCheckingFs (final r) = false
  /\ existsb logs (trace r) = true
  /\ attemptsTrialCopy (trace r) = false
  /\ fsInfo (final (probeFileSystem name c h (initialState name)))
     = defaultFsInfo.
Proof.
  intros [[e He] | (output & e & Hlist & Hpath & Hdf)] r; subst r.
  - rewrite !(run_disk_list_rejected name c h _ e He).
    repeat split; reflexivity.
  - rewrite !(run_type_query_rejected name c h _ output Hlist Hpath e Hdf).
    repeat split; reflexivity.
Qed.

Lemma query_failure_leaves_default_witness :
  let h := host_of (Fulfilled sample_disk_list) failure failure in
  let r := probeFileSystem sample_vm system h (initialState sample_vm) in
  outcome r = Fulfilled tt
  /\ fsInfo (final r) = defaultFsInfo
  /\ isCheckingFs (final r) = false.
Proof.
  intros h r.
  assert (Hfail : diskListFails h sample_vm system
                  \/ typeQueryFails h sample_vm system).
  { right. exists sample_disk_list, (Js.lit "exited with code 1").
    repeat split; reflexivity. }
  pose proof (query_failure_leaves_default sample_vm system h
                (initialState sample_vm) Hfail) as H.
  cbv zeta in H. fold r in H.
  destruct H as (Ho & _ & Hfs & Hc & _). repeat split; assumption.
Defined.

(** C9: when the filesystem-type query succeeds with fewer than two lines
    of output, no trial copy is started, nothing is logged, and the run
    leaves the state a failed query leaves: the probe result as it was (the
    default when the dialog opens) and the checking flag cleared. *)
Theorem short_type_output_leaves_default
  (name : Js.str) (c : ConnectionName) (h : Host) (s : State)
  (output fsOutput : Js.str) :
  h (domblklist_argv name c) = Fulfilled output ->
  Js.truthy (findDiskPath output) = true ->
  h (df_argv (findDiskPath output)) = Fulfilled fsOutput ->
  length (fsLinesOf fsOutput) < 2 ->
  let r := probeFileSystem name c h s in
  outcome r = Fulfilled tt
  /\ attemptsTrialCopy (trace r) = false
  /\ existsb logs (trace r) = false
  /\ final r = with_isCheckingFs false s
  /\ fsInfo (final r) = fsInfo s
  /\ fsInfo (final (probeFileSystem name c h (initialState name)))
     = defaultFsInfo.
Proof.
  intros Hlist Hpath Hdf Hlen r; subst r.
  rewrite !(run_short_output name c h _ output Hlist Hpath fsOutput Hdf Hlen).
  repeat split; reflexivity.
Qed.

Lemma short_type_output_leaves_default_witness :
  let h := host_of (Fulfilled sample_disk_list)
                   (Fulfilled (Js.lit "xfs")) (Fulfilled []) in
  let r := probeFileSystem sample_vm system h (initialState sample_vm) in
  attemptsTrialCopy (trace r) = false /\ fsInfo (final r) = defaultFsInfo.
Proof.
  intros h r.
  assert (Hlen : length (fsLinesOf (Js.lit "xfs")) < 2) by (vm_compute; lia).
  pose proof (short_type_output_leaves_default sample_vm system h
                (initialState sample_vm) sample_disk_list (Js.lit "xfs")
                eq_refl eq_refl eq_refl Hlen) as H.
  cbv zeta in H. fold r in H.
  destruct H as (_ & Ha & _ & _ & Hfs & _). split; assumption.
Defined.

(** ** Trimming and blank strings *)

Lemma trimStart_nil (s : Js.str) :
  Js.trimStart s = [] <-> forallb Js.isWhiteSpace s = true.
Proof.
  induction s as [|ch r IH]; simpl; [tauto|].
  destruct (Js.isWhiteSpace ch); simpl; [exact IH|].
  split; discriminate.
Qed.

Lemma trimStart_blank_iff (s : Js.str) :
  forallb Js.isWhiteSpace (Js.trimStart s) = forallb Js.isWhiteSpace s.
Proof.
  induction s as [|ch r IH]; simpl; [reflexivity|].
  destruct (Js.isWhiteSpace ch) eqn:E; simpl; [exact IH|].
  rewrite E. reflexivity.
Qed.

Lemma forallb_rev_eq {A} (f : A -> bool) (l : list A) :
  forallb f (rev l) = forallb f l.
Proof.
  induction l as [|a l IH]; simpl; [reflexivity|].
  rewrite forallb_app, IH. simpl. rewrite andb_true_r. apply andb_comm.
Qed.

(** A string trims to nothing exactly when it is empty or all white space. *)
Lemma trim_nil (s : Js.str) :
  Js.trim s = [] <-> forallb Js.isWhiteSpace s = true.
Proof.
  unfold Js.trim, Js.trimEnd.
  rewrite <- trimStart_blank_iff, <- (forallb_rev_eq _ (Js.trimStart s)).
  rewrite <- trimStart_nil.
  split; intro H.
  - apply (f_equal (@rev Js.char)) in H. rewrite rev_involutive in H. exact H.
  - rewrite H. reflexivity.
Qed.

(** ** The claims about the clone invoker *)

Lemma onClone_blank (name : Js.str) (c : ConnectionName) (s : State) :
  Js.trim (newVmName s) = [] ->
  onClone name c s = (with_inProgress false s, []).
Proof. intro H. unfold onClone, validateParams. simpl. rewrite H. reflexivity. Qed.

Lemma onClone_named (name : Js.str) (c : ConnectionName) (s : State) :
  Js.trim (newVmName s) <> [] ->
  onClone name c s =
  (with_inProgress true s, [Spawn (cloneArgs name c s) (clone_options c)]).
Proof.
  intro H. unfold onClone, validateParams. simpl.
  destruct (Js.trim (newVmName s)); [contradiction|reflexivity].
Qed.

Lemma cloneIsDisabled_spec (s : State) :
  cloneIsDisabled (render s) = false <->
  inProgress s = false /\ Js.trim (newVmName s) <> [].
Proof.
  unfold render, validateParams; simpl. rewrite orb_false_iff.
  destruct (Js.trim (newVmName s)); simpl; split; intros [? ?];
    split; congruence.
Qed.

(** C6: a submission with a name that is empty or all white space spawns
    nothing: validation fails, [onClone] returns early and leaves the
    in-progress flag false.  The form's [onSubmit] runs [onClone] so; the
    Clone button is disabled. *)
Theorem blank_name_never_clones
  (name : Js.str) (c : ConnectionName) (x : Session) :
  forallb Js.isWhiteSpace (newVmName (state x)) = true ->
  Validation.name (validateParams (state x)) <> None
  /\ onClone name c (state x) = (with_inProgress false (state x), [])
  /\ step name c ClickClone x = None
  /\ forall x', step name c SubmitForm x = Some x' ->
       log x' = log x /\ running x' = running x
       /\ inProgress (state x') = false.
Proof.
  intro Hblank. apply trim_nil in Hblank.
  pose proof (onClone_blank name c (state x) Hblank) as Hon.
  repeat split.
  - unfold validateParams; simpl. rewrite Hblank. discriminate.
  - exact Hon.
  - unfold step. destruct (isOpen (state x)); [|reflexivity].
    destruct (cloneIsDisabled (render (state x))) eqn:E; [reflexivity|].
    apply cloneIsDisabled_spec in E. tauto.
  - unfold step, invokeOnClone in H. rewrite Hon in H.
    destruct (isOpen (state x)); [|discriminate].
    injection H as <-. simpl. apply app_nil_r.
  - unfold step, invokeOnClone in H. rewrite Hon in H.
    destruct (isOpen (state x)); [|discriminate].
    injection H as <-. simpl. lia.
  - unfold step, invokeOnClone in H. rewrite Hon in H.
    destruct (isOpen (state x)); [|discriminate].
    injection H as <-. reflexivity.
Qed.

Lemma blank_name_never_clones_witness :
  exists x',
    step sample_vm system SubmitForm blank_session = Some x'
    /\ log x' = [] /\ inProgress (state x') = false.
Proof.
  destruct (blank_name_never_clones sample_vm system blank_session eq_refl)
    as (_ & _ & _ & H).
  eexists. split; [reflexivity|].
  destruct (H _ eq_refl) as (Hl & _ & Hp). split; [exact Hl | exact Hp].
Defined.

(** C10: a name that is not blank passes validation and reaches
    [virt-clone] as the [--name] argument exactly as it was typed, leading
    and trailing white space included. *)
Theorem name_passed_verbatim
  (name : Js.str) (c : ConnectionName) (s : State) :
  Js.trim (newVmName s) <> [] ->
  Validation.name (validateParams s) = None
  /\ exists flag,
       onClone name c s =
       (with_inProgress true s,
        [Spawn [Js.lit "virt-clone"; Js.lit "--connect"; qemu_uri c;
                Js.lit "--original"; name; Js.lit "--name"; newVmName s; flag]
               (clone_options c)]).
Proof.
  intro H. split.
  - unfold validateParams; simpl.
    destruct (Js.trim (newVmName s)); [contradiction|reflexivity].
  - eexists. rewrite (onClone_named name c s H). reflexivity.
Qed.

Lemma name_passed_verbatim_witness :
  let s := with_newVmName (Js.lit " foo ") (initialState sample_vm) in
  Js.trim (newVmName s) = Js.lit "foo"
  /\ exists flag,
       onClone sample_vm session s =
       (with_inProgress true s,
        [Spawn [Js.lit "virt-clone"; Js.lit "--connect"; qemu_uri session;
                Js.lit "--original"; sample_vm; Js.lit "--name";
                Js.lit " foo "; flag]
               (clone_options session)]).
Proof.
  intro s. split; [reflexivity|].
  refine (proj2 (name_passed_verbatim sample_vm session s _)).
  vm_compute. discriminate.
Defined.

Lemma last_cons_default {A} (l : list A) (a d : A) :
  last (a :: l) d = last l a.
Proof.
  revert a d. induction l as [|b l IH]; intros a d; [reflexivity|].
  change (last (a :: b :: l) d) with (last (b :: l) d).
  rewrite (IH b d), (IH b a). reflexivity.
Qed.

(** Output that arrives while a clone runs: each piece takes the place of
    the one before, and the rest of the inputs find the last one. *)
Lemma stream_then (name : Js.str) (c : ConnectionName) (chunks : list Js.str)
  (rest : list Input) :
  forall x, 0 < running x ->
    steps name c (List.map CloneStream chunks ++ rest) x
    = steps name c rest
        {| state := with_virtCloneOutput
                      (last chunks (virtCloneOutput (state x))) (state x);
           running := running x;
           log := log x |}.
Proof.
  induction chunks as [|d more IH]; intros x Hrun.
  - destruct x as [s n l]. destruct s. reflexivity.
  - cbn [List.map app steps]. unfold step.
    destruct (running x) as [|n] eqn:R; [lia|].
    rewrite IH by (simpl; lia).
    cbn [state running log]. rewrite (last_cons_default more d).
    reflexivity.
Qed.

(** C7 as stated fails: with two pieces of output streamed before the clone
    fails, the detail of the error is the second piece; the first is gone,
    so the detail is not the output the command streamed. *)
Lemma error_detail_is_last_piece_only :
  let chunks := [Js.lit "Allocating 'foo-clone.qcow2'";
                 Js.lit "ERROR    Disk is in use"] in
  exists x',
    steps sample_vm system
      (List.map CloneStream chunks ++ [CloneExit false]) cloning_session
    = Some x'
    /\ modalError (render (state x'))
       = Some (failedToCloneMessage sample_vm,
               Js.lit "ERROR    Disk is in use")
    /\ modalError (render (state x'))
       <> Some (failedToCloneMessage sample_vm, streamedOutput chunks).
Proof.
  intro chunks. eexists. split; [reflexivity|].
  split; [reflexivity|].
  intro H. vm_compute in H. discriminate H.
Qed.

(** C7, amended: when the clone command succeeds the dialog is closed.
    When it fails the dialog stays open, the in-progress flag is cleared so
    that the Clone button works again for a valid name, and the error shown
    has a message that contains the name of the source machine and, as
    detail, the piece of output the clone command streamed last: each piece
    streamed takes the place of the one before. *)
Theorem clone_exit_outcome
  (name : Js.str) (c : ConnectionName) (x : Session) :
  isOpen (state x) = true ->
  0 < running x ->
  (exists x', step name c (CloneExit true) x = Some x'
              /\ isOpen (state x') = false)
  /\ (exists x', step name c (CloneExit false) x = Some x'
        /\ isOpen (state x') = true
        /\ inProgress (state x') = false
        /\ modalError (render (state x')) =
           Some (failedToCloneMessage name, virtCloneOutput (state x))
        /\ (exists before after,
               failedToCloneMessage name = before ++ name ++ after)
        /\ (Js.trim (newVmName (state x)) <> [] ->
            cloneIsDisabled (render (state x')) = false
            /\ step name c ClickClone x' <> None))
  /\ (forall chunks, exists x',
        steps name c (List.map CloneStream chunks ++ [CloneExit false]) x
        = Some x'
        /\ isOpen (state x') = true
        /\ inProgress (state x') = false
        /\ modalError (render (state x')) =
           Some (failedToCloneMessage name,
                 last chunks (virtCloneOutput (state x)))).
Proof.
  intros Hopen Hrun.
  split; [|split].
  - destruct x as [s n l]; simpl in Hopen, Hrun.
    destruct n as [|n]; [lia|].
    eexists; split; reflexivity.
  - destruct x as [s n l]; simpl in Hopen, Hrun.
    destruct n as [|n]; [lia|].
    assert (Hready : Js.trim (newVmName s) <> [] ->
                     cloneIsDisabled (render (onCloneRejected name s)) = false).
    { intro Hname. apply cloneIsDisabled_spec.
      split; [reflexivity | exact Hname]. }
    exists {| state := onCloneRejected name s; running := n; log := l |}.
    split; [reflexivity|].
    split; [exact Hopen|].
    split; [reflexivity|].
    split; [reflexivity|].
    split.
    + exists (gettext (Js.lit "Failed to clone VM ")), [].
      rewrite app_nil_r. reflexivity.
    + intro Hname. split; [exact (Hready Hname)|].
      unfold step.
      change (state {| state := onCloneRejected name s;
                       running := n; log := l |})
        with (onCloneRejected name s).
      rewrite (Hready Hname).
      change (isOpen (onCloneRejected name s)) with (isOpen s).
      rewrite Hopen. discriminate.
  - intro chunks. rewrite (stream_then name c chunks _ x Hrun).
    cbn [steps]. unfold step. cbn [running state log].
    destruct (running x) as [|n]; [lia|].
    eexists. split; [reflexivity|].
    split; [exact Hopen|]. split; reflexivity.
Qed.

Lemma clone_exit_outcome_witness :
  exists x',
    steps sample_vm system
      (List.map CloneStream [Js.lit "Allocating 'foo-clone.qcow2'";
                             Js.lit "ERROR    Disk is in use"]
       ++ [CloneExit false])
      cloning_session
    = Some x'
    /\ isOpen (state x') = true
    /\ inProgress (state x') = false
    /\ modalError (render (state x')) =
       Some (Js.lit "Failed to clone VM foo",
             Js.lit "ERROR    Disk is in use").
Proof.
  destruct (clone_exit_outcome sample_vm system cloning_session
              eq_refl (le_n 1))
    as (_ & _ & H).
  destruct (H [Js.lit "Allocating 'foo-clone.qcow2'";
               Js.lit "ERROR    Disk is in use"])
    as (x' & Hs & Ho & Hp & He).
  exists x'. repeat split; assumption.
Defined.

(** ** Re-entrance *)

Lemma click_blocked_while_in_progress
  (name : Js.str) (c : ConnectionName) (x : Session) :
  inProgress (state x) = true -> step name c ClickClone x = None.
Proof.
  intro H. unfold step.
  destruct (isOpen (state x)); [|reflexivity].
  destruct (cloneIsDisabled (render (state x))) eqn:E; [reflexivity|].
  apply cloneIsDisabled_spec in E. destruct E as [E _]. congruence.
Qed.

Lemma submit_ignores_in_progress
  (name : Js.str) (c : ConnectionName) (x : Session) :
  isOpen (state x) = true ->
  Js.trim (newVmName (state x)) <> [] ->
  step name c SubmitForm x =
  Some {| state := with_inProgress true (state x);
          running := running x + 1;
          log := log x ++ [Spawn (cloneArgs name c (state x))
                                 (clone_options c)] |}.
Proof.
  intros Hopen Hname. unfold step, invokeOnClone.
  rewrite Hopen, (onClone_named name c (state x) Hname). reflexivity.
Qed.

Lemma guarded_step (name : Js.str) (c : ConnectionName) (i : Input)
  (x x' : Session) :
  isSubmit i = false -> guarded x -> step name c i x = Some x' -> guarded x'.
Proof.
  unfold guarded. intros Hi [Hle Hidle] Hstep.
  destruct i; try discriminate Hi; unfold step in Hstep.
  - destruct (isOpen (state x)); [|discriminate].
    destruct (cloneIsDisabled (render (state x))) eqn:E; [discriminate|].
    apply cloneIsDisabled_spec in E. destruct E as [Eidle Ename].
    unfold invokeOnClone in Hstep.
    rewrite (onClone_named name c (state x) Ename) in Hstep.
    pose proof (Hidle Eidle) as R0.
    injection Hstep as <-. simpl.
    split; [lia | discriminate].
  - destruct (isOpen (state x)); [|discriminate].
    injection Hstep as <-. simpl. auto.
  - destruct (isOpen (state x)); [|discriminate].
    destruct (reflinkGroup (render (state x))); try discriminate.
    injection Hstep as <-. simpl. auto.
  - destruct (isOpen (state x)); [|discriminate].
    injection Hstep as <-. simpl. auto.
  - destruct (running x) eqn:R; [discriminate|].
    injection Hstep as <-. simpl. auto.
  - destruct (running x) as [|n] eqn:R; [discriminate|].
    injection Hstep as <-. simpl. split; [lia|]. intros _. lia.
  - destruct (isCheckingFs (state x)); [|discriminate].
    injection Hstep as <-. cbn [state running].
    destruct (probe_writes name c h (state x)) as (info & checked & ->).
    auto.
Qed.

(** Through the button alone, no second clone starts while one runs. *)
Lemma button_alone_never_concurrent
  (name : Js.str) (c : ConnectionName) (inputs : list Input) :
  forallb (fun i => negb (isSubmit i)) inputs = true ->
  forall x x', guarded x -> steps name c inputs x = Some x' -> running x' <= 1.
Proof.
  induction inputs as [|i rest IH]; simpl; intros Hin x x' Hg Hsteps.
  - injection Hsteps as <-. apply Hg.
  - apply andb_true_iff in Hin. destruct Hin as [Hi Hrest].
    apply negb_true_iff in Hi.
    destruct (step name c i x) as [x1|] eqn:E; [|discriminate].
    exact (IH Hrest x1 x' (guarded_step name c i x x1 Hi Hg E) Hsteps).
Qed.

(** C5 fails on the code: the form's [onSubmit] calls [onClone] without
    looking at the in-progress flag.  Two submissions of the form in a row
    start two [virt-clone] processes, the second while the flag is set and
    the Clone button is disabled. *)
Theorem form_submit_starts_second_clone :
  let x0 := openSession sample_vm in
  let clone := Spawn [Js.lit "virt-clone"; Js.lit "--connect";
                      Js.lit "qemu:///system"; Js.lit "--original";
                      Js.lit "foo"; Js.lit "--name"; Js.lit "foo-clone";
                      Js.lit "--auto-clone"]
                     (clone_options system) in
  exists x1 x2,
    step sample_vm system SubmitForm x0 = Some x1
    /\ inProgress (state x1) = true
    /\ running x1 = 1
    /\ step sample_vm system ClickClone x1 = None
    /\ step sample_vm system SubmitForm x1 = Some x2
    /\ running x2 = 2
    /\ log x2 = [clone; clone].
Proof.
  intros x0 clone. do 2 eexists.
  split; [reflexivity|]. split; [reflexivity|]. split; [reflexivity|].
  split; [reflexivity|]. split; [reflexivity|]. split; reflexivity.
Qed.

(** ** The example of the spec, end to end *)

Example probe_then_clone_with_reflink :
  let disk_list := Js.lit "Target  Source" ++ [newline]
                   ++ Js.lit "vda  /var/lib/libvirt/images/foo.qcow2" in
  let type_info := Js.lit "fstype" ++ [newline] ++ Js.lit "xfs" in
  let h := host_of (Fulfilled disk_list) (Fulfilled type_info) (Fulfilled []) in
  let probed := final (probeFileSystem sample_vm system h
                         (initialState sample_vm)) in
  fsInfo probed = {| hasReflink := true; fsType := xfs |}
  /\ reflinkGroup (render probed) = ReflinkCheckbox true xfs
  /\ option_map log
       (step sample_vm system SubmitForm
          {| state := probed; running := 0; log := [] |})
     = Some [Spawn [Js.lit "virt-clone"; Js.lit "--connect";
                    Js.lit "qemu:///system"; Js.lit "--original";
                    Js.lit "foo"; Js.lit "--name"; Js.lit "foo-clone";
                    Js.lit "--reflink"]
                   (clone_options system)].
Proof. repeat split; reflexivity. Qed.

(** * Further properties of the probe *)

(** X1: the probe never fails and never leaves the dialog checking: for
    every host the chain fulfils and [isCheckingFs] ends false. *)
Theorem probe_always_settles
  (name : Js.str) (c : ConnectionName) (h : Host) (s : State) :
  outcome (probeFileSystem name c h s) = Fulfilled tt
  /\ isCheckingFs (final (probeFileSystem name c h s)) = false.
Proof.
  destruct (probe_run_inv name c h s); split; reflexivity.
Qed.

(** X2: the probe writes [fsInfo], [useReflink] and [isCheckingFs] only: the
    name typed, the in-progress flag, the clone output, the error and the
    open dialog are as they were, for every host. *)
Theorem probe_keeps_form_state
  (name : Js.str) (c : ConnectionName) (h : Host) (s : State) :
  let s' := final (probeFileSystem name c h s) in
  newVmName s' = newVmName s
  /\ inProgress s' = inProgress s
  /\ virtCloneOutput s' = virtCloneOutput s
  /\ error s' = error s
  /\ isOpen s' = isOpen s.
Proof.
  destruct (probe_run_inv name c h s); repeat split; reflexivity.
Qed.

(** X3: the commands of a run are an initial part of: list the disks, query
    the type of the located path, copy that path to its [.test] sibling,
    remove the sibling.  The first is always there; none is started unless
    the one before it was. *)
Theorem probe_commands_in_order
  (name : Js.str) (c : ConnectionName) (h : Host) (s : State) :
  let t := commands (trace (probeFileSystem name c h s)) in
  t = [listDisks name c]
  \/ exists output k,
       h (domblklist_argv name c) = Fulfilled output
       /\ findDiskPath output <> []
       /\ 2 <= k <= 4
       /\ t = firstn k [listDisks name c;
                        queryType c (findDiskPath output);
                        copyFile c (findDiskPath output);
                        removeTestFile c (findDiskPath output)].
Proof.
  destruct (probe_run_inv name c h s) as
    [e He | output Ho Hp | output e Ho Hp Hd | output fo Ho Hp Hd Hl
     | output fo Ho Hp Hd Hl Hc | output fo out Ho Hp Hd Hl Hc Hcp
     | output fo e Ho Hp Hd Hl Hc Hcp];
    try (left; reflexivity);
    right; exists output;
    apply truthy_nonempty in Hp.
  - exists 2. repeat split; auto.
  - exists 2. repeat split; auto.
  - exists 2. repeat split; auto.
  - exists 4. repeat split; auto.
  - exists 3. repeat split; auto.
Qed.

(** X4: every command of the probe asks for privileges the same way,
    ["try"] on the system connection and [false] on the session one, none
    runs in a pty, and only the trial copy asks for its error message. *)
Theorem probe_command_options
  (name : Js.str) (c : ConnectionName) (h : Host) (s : State) :
  Forall (fun e =>
            match optionsOf e with
            | Some opts =>
                superuser opts = (if is_system c then su_try else su_false)
                /\ pty opts = false
                /\ err_message opts = spawns (Js.lit "cp") e
            | None => True
            end)
         (trace (probeFileSystem name c h s)).
Proof.
  destruct (probe_run_inv name c h s); simpl;
    repeat (constructor; try (simpl; repeat split; reflexivity)).
Qed.

(** X5: when the dialog opens and the probe has run, reflink support is
    recorded exactly when the test file was removed, that is when the trial
    copy went through; the checkbox state equals the recorded support, and
    recorded support comes with type [xfs] or [btrfs]. *)
Theorem probe_reflink_sound
  (name : Js.str) (c : ConnectionName) (h : Host) :
  let r := probeFileSystem name c h (initialState name) in
  hasReflink (fsInfo (final r)) = removesTestFile (trace r)
  /\ useReflink (final r) = hasReflink (fsInfo (final r))
  /\ (if hasReflink (fsInfo (final r))
      then isCowType (fsType (fsInfo (final r))) = true
      else True).
Proof.
  destruct (probe_run_inv name c h (initialState name));
    repeat split; simpl; auto.
Qed.

(** X6: what the reflink row of the form shows once the probe has run on
    the opening state.  It is never the checking notice; the checkbox comes
    checked and only after a successful trial copy; "not enabled" means a
    trial copy on [xfs] or [btrfs] failed; "does not support" names a type
    that is neither; the row is absent when no type was recorded. *)
Theorem probe_then_render
  (name : Js.str) (c : ConnectionName) (h : Host) :
  let r := probeFileSystem name c h (initialState name) in
  match reflinkGroup (render (final r)) with
  | CheckingSupport => False
  | ReflinkCheckbox isChecked ty =>
      isChecked = true /\ isCowType ty = true
      /\ removesTestFile (trace r) = true
  | ReflinkNotEnabled ty =>
      isCowType ty = true
      /\ attemptsTrialCopy (trace r) = true
      /\ removesTestFile (trace r) = false
  | ReflinkUnsupported ty =>
      isCowType ty = false /\ ty <> []
      /\ attemptsTrialCopy (trace r) = false
  | NoReflinkGroup =>
      fsType (fsInfo (final r)) = []
      /\ attemptsTrialCopy (trace r) = false
  end.
Proof.
  destruct (probe_run_inv name c h (initialState name)) as
    [e He | output Ho Hp | output e Ho Hp Hd | output fo Ho Hp Hd Hl
     | output fo Ho Hp Hd Hl Hc | output fo out Ho Hp Hd Hl Hc Hcp
     | output fo e Ho Hp Hd Hl Hc Hcp];
    try (split; reflexivity).
  - (* another type *)
    unfold render, final, trace; simpl.
    change (Js.eqb (detectedType fo) xfs || Js.eqb (detectedType fo) btrfs)
      with (isCowType (detectedType fo)).
    rewrite Hc.
    destruct (Js.truthy (detectedType fo)) eqn:Ht.
    + apply truthy_nonempty in Ht. repeat split; auto.
    + apply truthy_nonempty_false in Ht. split; [exact Ht | reflexivity].
  - (* copy fulfilled *)
    unfold render, final, trace; simpl. repeat split; auto.
  - (* copy rejected *)
    unfold render, final, trace; simpl.
    change (Js.eqb (detectedType fo) xfs || Js.eqb (detectedType fo) btrfs)
      with (isCowType (detectedType fo)).
    rewrite Hc. repeat split; auto.
Qed.

(** * Further properties of the disk locator *)

Lemma split_ws_from_pieces (s : Js.str) :
  forall in_run,
    Forall (fun piece => forallb (fun ch => negb (Js.isWhiteSpace ch)) piece
                         = true)
           (Js.split_ws_from in_run s).
Proof.
  induction s as [|ch r IH]; intro in_run; simpl.
  - repeat constructor.
  - destruct (Js.isWhiteSpace ch) eqn:E.
    + destruct in_run; [apply IH | constructor; [reflexivity | apply IH]].
    + specialize (IH false).
      destruct (Js.split_ws_from false r) as [|piece rest]; simpl.
      * repeat constructor. simpl. rewrite E. reflexivity.
      * inversion IH as [|? ? Hpiece Hrest]; subst.
        constructor; [|exact Hrest]. simpl. rewrite E. exact Hpiece.
Qed.

Lemma path_field_no_space (row : Js.str) :
  forallb (fun ch => negb (Js.isWhiteSpace ch)) (path_field row) = true.
Proof.
  unfold path_field, tokens, Js.at_, Js.split_ws.
  pose proof (split_ws_from_pieces (Js.trim row) false) as H.
  rewrite Forall_forall in H.
  destruct (nth_in_or_default 1 (Js.split_ws_from false (Js.trim row)) [])
    as [Hin|Hd].
  - exact (H _ Hin).
  - rewrite Hd. reflexivity.
Qed.

(** X7: the located path holds no white space and is not the dash: it is
    one token of its row, so a source path with a space in it comes back cut
    at the space. *)
Theorem located_path_is_one_token (output : Js.str) :
  forallb (fun ch => negb (Js.isWhiteSpace ch)) (findDiskPath output) = true
  /\ findDiskPath output <> dash.
Proof.
  rewrite findDiskPath_find. unfold first_disk_path.
  destruct (find row_qualifies (data_rows output)) as [row|] eqn:E; simpl.
  - split; [apply path_field_no_space|].
    apply find_some in E. destruct E as [_ E].
    apply row_qualifies_spec in E. apply E.
  - split; [reflexivity | discriminate].
Qed.

Example located_path_cut_at_space :
  findDiskPath (lines_of [Js.lit " Target   Source";
                          Js.lit " vda      /var/lib/my images/foo.qcow2"])
  = Js.lit "/var/lib/my".
Proof. reflexivity. Qed.

Lemma split_char_app (sep : Js.char) (first rest : Js.str) :
  ~ In sep first ->
  Js.split_char sep (first ++ sep :: rest) = first :: Js.split_char sep rest.
Proof.
  induction first as [|ch r IH]; simpl; intro Hno.
  - rewrite N.eqb_refl. reflexivity.
  - destruct (N.eqb_spec ch sep) as [->|Hne]; [tauto|].
    rewrite IH by tauto. reflexivity.
Qed.

Lemma split_char_whole (sep : Js.char) (s : Js.str) :
  ~ In sep s -> Js.split_char sep s = [s].
Proof.
  induction s as [|ch r IH]; simpl; intro Hno; [reflexivity|].
  destruct (N.eqb_spec ch sep) as [->|Hne]; [tauto|].
  rewrite IH by tauto. reflexivity.
Qed.

(** X8: an output of one line only, the empty output included, has no data
    rows: no path is located. *)
Theorem one_line_output_has_no_disk (output : Js.str) :
  ~ In newline output -> findDiskPath output = [].
Proof.
  intro Hno. unfold findDiskPath.
  rewrite (split_char_whole newline output Hno). reflexivity.
Qed.

Lemma one_line_output_has_no_disk_witness :
  findDiskPath (Js.lit " vda      /var/lib/libvirt/images/foo.qcow2") = [].
Proof.
  apply one_line_output_has_no_disk.
  vm_compute. intuition discriminate.
Defined.

(** X9: the text of the header line has no part in the answer: two outputs
    that differ in their first line only locate the same path. *)
Theorem header_line_is_ignored (header header' rest : Js.str) :
  ~ In newline header -> ~ In newline header' ->
  findDiskPath (header ++ newline :: rest)
  = findDiskPath (header' ++ newline :: rest).
Proof.
  intros H H'.
  rewrite !findDiskPath_find. unfold first_disk_path, data_rows.
  rewrite (split_char_app newline header rest H),
    (split_char_app newline header' rest H').
  reflexivity.
Qed.

Lemma header_line_is_ignored_witness :
  findDiskPath (Js.lit "vda /img/a.qcow2" ++ newline :: Js.lit "vdb /img/b.qcow2")
  = findDiskPath (Js.lit "" ++ newline :: Js.lit "vdb /img/b.qcow2").
Proof.
  apply header_line_is_ignored; vm_compute; intuition discriminate.
Defined.

(** * Further properties of the form and the clone invoker *)

Lemma blank_trim (s : Js.str) : blank s = true <-> Js.trim s = [].
Proof. unfold blank. symmetry. apply trim_nil. Qed.

Lemma not_blank_trim (s : Js.str) : blank s = false <-> Js.trim s <> [].
Proof.
  rewrite <- blank_trim. destruct (blank s); split; congruence.
Qed.

(** X10: the name field is flagged, with "Name must not be empty", exactly
    when the name is empty or white space throughout, and the Clone button
    is disabled exactly when a clone is in progress or the name is so. *)
Theorem validation_flags_blank_names (s : State) :
  nameInvalid (render s)
  = (if blank (newVmName s)
     then Some (Js.lit "Name must not be empty") else None)
  /\ cloneIsDisabled (render s) = inProgress s || blank (newVmName s).
Proof.
  unfold render, validateParams, isObjectEmpty_validation; simpl.
  destruct (blank (newVmName s)) eqn:B.
  - apply blank_trim in B. rewrite B. split; reflexivity.
  - apply not_blank_trim in B.
    destruct (Js.trim (newVmName s)); [contradiction|]. split; reflexivity.
Qed.

Lemma default_name_not_blank (name : Js.str) :
  blank (name ++ Js.lit "-clone") = false.
Proof.
  unfold blank. rewrite forallb_app. apply andb_false_r.
Qed.

(** X11: for any machine name the proposed name, [name + "-clone"], is
    valid, so the Clone button works from the moment the dialog opens, while
    the form still shows the checking notice; a clone started then is a
    full copy. *)
Theorem clone_before_probe_is_full_copy (name : Js.str) (c : ConnectionName) :
  nameInvalid (render (initialState name)) = None
  /\ reflinkGroup (render (initialState name)) = CheckingSupport
  /\ cloneIsDisabled (render (initialState name)) = false
  /\ step name c ClickClone (openSession name)
     = Some {| state := with_inProgress true (initialState name);
               running := 1;
               log := [Spawn [Js.lit "virt-clone"; Js.lit "--connect";
                              qemu_uri c; Js.lit "--original"; name;
                              Js.lit "--name"; name ++ Js.lit "-clone";
                              autoCloneFlag]
                             (clone_options c)] |}.
Proof.
  pose proof (default_name_not_blank name) as B.
  apply not_blank_trim in B.
  assert (Hd : cloneIsDisabled (render (initialState name)) = false)
    by (apply cloneIsDisabled_spec; split; [reflexivity | exact B]).
  assert (Hn : nameInvalid (render (initialState name)) = None).
  { unfold render, validateParams; simpl.
    destruct (Js.trim (name ++ Js.lit "-clone")); [contradiction|reflexivity]. }
  split; [exact Hn|]. split; [reflexivity|]. split; [exact Hd|].
  unfold step, openSession.
  change (state {| state := initialState name; running := 0; log := [] |})
    with (initialState name).
  rewrite Hd. change (isOpen (initialState name)) with true.
  unfold invokeOnClone.
  change (state {| state := initialState name; running := 0; log := [] |})
    with (initialState name).
  rewrite (onClone_named name c (initialState name) B).
  reflexivity.
Qed.

(** X12: once the probe is over, the copy flag follows the checkbox on
    screen: [--reflink] when the checkbox is shown and checked,
    [--auto-clone] in every other case. *)
Theorem copy_flag_follows_checkbox
  (name : Js.str) (c : ConnectionName) (s : State) :
  isCheckingFs s = false ->
  cloneArgs name c s
  = [Js.lit "virt-clone"; Js.lit "--connect"; qemu_uri c;
     Js.lit "--original"; name; Js.lit "--name"; newVmName s;
     match reflinkGroup (render s) with
     | ReflinkCheckbox true _ => reflinkFlag
     | _ => autoCloneFlag
     end].
Proof.
  intro Hc. unfold cloneArgs, render; simpl. rewrite Hc.
  destruct (hasReflink (fsInfo s)).
  - rewrite andb_true_r. destruct (useReflink s); reflexivity.
  - rewrite andb_false_r.
    destruct (Js.eqb (fsType (fsInfo s)) xfs || Js.eqb (fsType (fsInfo s)) btrfs);
      [reflexivity|].
    destruct (Js.truthy (fsType (fsInfo s))); reflexivity.
Qed.

Lemma copy_flag_follows_checkbox_witness :
  let s := with_isCheckingFs false
             (with_fsInfo {| hasReflink := true; fsType := xfs |}
                (initialState sample_vm)) in
  last (cloneArgs sample_vm system s) [] = autoCloneFlag.
Proof.
  intro s.
  rewrite (copy_flag_follows_checkbox sample_vm system s eq_refl).
  reflexivity.
Defined.

(** ** Invariants of the dialog *)

Lemma steps_invariant (name : Js.str) (c : ConnectionName)
  (P : Session -> Prop) :
  (forall i x x', P x -> step name c i x = Some x' -> P x') ->
  forall inputs x x', P x -> steps name c inputs x = Some x' -> P x'.
Proof.
  intros Hstep. induction inputs as [|i rest IH]; simpl; intros x x' HP Hrun.
  - injection Hrun as <-. exact HP.
  - destruct (step name c i x) as [x1|] eqn:E; [|discriminate].
    exact (IH x1 x' (Hstep i x x1 HP E) Hrun).
Qed.

(** What one call of [onClone] does to a session. *)
Lemma invokeOnClone_cases (name : Js.str) (c : ConnectionName) (x : Session) :
  (blank (newVmName (state x)) = true
   /\ invokeOnClone name c x
      = {| state := with_inProgress false (state x);
           running := running x + 0; log := log x ++ [] |})
  \/ (blank (newVmName (state x)) = false
      /\ invokeOnClone name c x
         = {| state := with_inProgress true (state x);
              running := running x + 1;
              log := log x ++ [Spawn (cloneArgs name c (state x))
                                     (clone_options c)] |}).
Proof.
  unfold invokeOnClone.
  destruct (blank (newVmName (state x))) eqn:B.
  - left. rewrite (onClone_blank name c _ (proj1 (blank_trim _) B)). auto.
  - right. rewrite (onClone_named name c _ (proj1 (not_blank_trim _) B)). auto.
Qed.

(** A step either runs [onClone], or leaves the log alone, clears no error,
    and leaves the probe's cells alone unless it is the probe that settles. *)
Lemma step_cases (name : Js.str) (c : ConnectionName) (i : Input)
  (x x' : Session) :
  step name c i x = Some x' ->
  x' = invokeOnClone name c x
  \/ (log x' = log x /\ running x' <= running x
      /\ (state x' = onCloneRejected name (state x)
          \/ error (state x') = error (state x))
      /\ ((fsInfo (state x') = fsInfo (state x)
           /\ isCheckingFs (state x') = isCheckingFs (state x))
          \/ isCheckingFs (state x) = true)).
Proof.
  unfold step. destruct i.
  - destruct (isOpen (state x) && negb (cloneIsDisabled (render (state x))));
      [|discriminate]. intro H; injection H as <-. left; reflexivity.
  - destruct (isOpen (state x)); [|discriminate].
    intro H; injection H as <-. left; reflexivity.
  - destruct (isOpen (state x)); [|discriminate].
    intro H; injection H as <-. right. simpl. auto 6.
  - destruct (isOpen (state x)); [|discriminate].
    destruct (reflinkGroup (render (state x))); try discriminate.
    intro H; injection H as <-. right. simpl. auto 6.
  - destruct (isOpen (state x)); [|discriminate].
    intro H; injection H as <-. right. simpl. auto 6.
  - destruct (running x); [discriminate|].
    intro H; injection H as <-. right. simpl. auto 6.
  - destruct (running x) as [|n] eqn:R; [discriminate|].
    intro H; injection H as <-. right. simpl.
    destruct success; simpl; repeat split; auto.
  - destruct (isCheckingFs (state x)) eqn:E; [|discriminate].
    intro H; injection H as <-. right. cbn [state running log].
    destruct (probe_writes name c h (state x)) as (info & checked & ->).
    simpl. auto 6.
Qed.

Lemma cloneArgs_isCloneOf (name : Js.str) (c : ConnectionName) (s : State) :
  blank (newVmName s) = false ->
  isCloneOf name c (Spawn (cloneArgs name c s) (clone_options c)).
Proof.
  intro B. exists (newVmName s).
  exists (if useReflink s && hasReflink (fsInfo s)
          then reflinkFlag else autoCloneFlag).
  split; [reflexivity|]. split; [exact B|].
  destruct (useReflink s && hasReflink (fsInfo s)); auto.
Qed.

(** X13: whatever the user, the clone processes and the probe do after the
    dialog opens, on any host, everything [onClone] spawns is a [virt-clone]
    of the source machine with a name that is not blank and one of the two
    copy flags, and the dialog never hears from more clone processes than it
    started. *)
Theorem dialog_spawns_only_clones
  (name : Js.str) (c : ConnectionName) (inputs : list Input) (x : Session) :
  steps name c inputs (openSession name) = Some x ->
  Forall (isCloneOf name c) (log x) /\ running x <= length (log x).
Proof.
  apply (steps_invariant name c
           (fun y => Forall (isCloneOf name c) (log y)
                     /\ running y <= length (log y))).
  - intros i y y' [Hlog Hrun] Hstep.
    destruct (step_cases name c i y y' Hstep) as [-> | (Hl & Hr & _)].
    + destruct (invokeOnClone_cases name c y) as [[_ ->] | [B ->]]; simpl.
      * rewrite app_nil_r. split; [exact Hlog | lia].
      * split.
        -- apply Forall_app. split; [exact Hlog|].
           constructor; [|constructor]. apply cloneArgs_isCloneOf. exact B.
        -- rewrite length_app. simpl. lia.
    + rewrite Hl. split; [exact Hlog | lia].
  - split; [constructor | simpl; lia].
Qed.

Lemma dialog_spawns_only_clones_witness :
  let h := host_of (Fulfilled sample_disk_list)
                   (Fulfilled (df_output xfs)) (Fulfilled []) in
  exists x,
    steps sample_vm system
      [SubmitForm; CloneExit false; ProbeSettles h;
       ChangeName (Js.lit " "); SubmitForm; ChangeName (Js.lit "bar");
       ToggleReflink false; ClickClone; CloneStream (Js.lit "Allocating")]
      (openSession sample_vm) = Some x
    /\ Forall (isCloneOf sample_vm system) (log x)
    /\ List.map (fun e => match e with
                          | Spawn argv _ => last argv []
                          | ConsoleLog _ _ => []
                          end) (log x)
       = [autoCloneFlag; reflinkFlag].
Proof.
  intro h.
  destruct (steps sample_vm system
              [SubmitForm; CloneExit false; ProbeSettles h;
               ChangeName (Js.lit " "); SubmitForm;
               ChangeName (Js.lit "bar"); ToggleReflink false; ClickClone;
               CloneStream (Js.lit "Allocating")]
              (openSession sample_vm)) as [x|] eqn:E.
  - exists x. split; [reflexivity|].
    split; [exact (proj1 (dialog_spawns_only_clones sample_vm system _ x E))|].
    vm_compute in E. injection E as <-. vm_compute. reflexivity.
  - vm_compute in E. discriminate E.
Defined.

(** X14: the error of a failed clone is never taken back.  From then on,
    through retries and further output, the dialog shows it, with the latest
    streamed output as its detail, and the footer shows no output. *)
Theorem clone_error_is_never_cleared
  (name : Js.str) (c : ConnectionName) (inputs : list Input)
  (x x' : Session) :
  cloneFailedShown name (state x) ->
  steps name c inputs x = Some x' ->
  cloneFailedShown name (state x')
  /\ modalError (render (state x'))
     = Some (failedToCloneMessage name, virtCloneOutput (state x'))
  /\ footerOutput (render (state x')) = None.
Proof.
  intros Hshown Hrun.
  assert (H : cloneFailedShown name (state x')).
  { revert Hshown Hrun.
    apply (steps_invariant name c (fun y => cloneFailedShown name (state y))).
    intros i y y' Hy Hstep. unfold cloneFailedShown in *.
    destruct (step_cases name c i y y' Hstep)
      as [-> | (_ & _ & [-> | ->] & _)]; auto.
    destruct (invokeOnClone_cases name c y) as [[_ ->] | [_ ->]]; exact Hy. }
  split; [exact H|]. unfold cloneFailedShown in H.
  unfold render, isObjectEmpty_error; simpl. rewrite H.
  split; reflexivity.
Qed.

Lemma clone_error_is_never_cleared_witness :
  let x := {| state := onCloneRejected sample_vm (state cloning_session);
              running := 0; log := log cloning_session |} in
  step sample_vm system (CloneExit false) cloning_session = Some x
  /\ exists x',
       steps sample_vm system
         [SubmitForm; CloneStream (Js.lit "Allocating 'foo-clone.qcow2'")] x
       = Some x'
       /\ inProgress (state x') = true
       /\ modalError (render (state x'))
          = Some (Js.lit "Failed to clone VM foo",
                  Js.lit "Allocating 'foo-clone.qcow2'").
Proof.
  intro x. split; [reflexivity|].
  pose proof (clone_error_is_never_cleared sample_vm system
                [SubmitForm;
                 CloneStream (Js.lit "Allocating 'foo-clone.qcow2'")]
                x _ eq_refl eq_refl) as H.
  eexists. split; [reflexivity|].
  split; [reflexivity | exact (proj1 (proj2 H))].
Defined.

(** X15: the in-progress flag does not say whether a clone is running.  A
    submission of the form with a blank name clears it, whatever it was, so
    after the name is filled in again the Clone button starts a clone, next
    to any that is still running. *)
Theorem blank_submit_reopens_button
  (name : Js.str) (c : ConnectionName) (x : Session)
  (blankName newName : Js.str) :
  isOpen (state x) = true ->
  blank blankName = true ->
  blank newName = false ->
  exists x',
    steps name c
      [ChangeName blankName; SubmitForm; ChangeName newName; ClickClone] x
    = Some x'
    /\ state x' = with_inProgress true (with_newVmName newName (state x))
    /\ running x' = running x + 1
    /\ log x'
       = log x ++ [Spawn (cloneArgs name c
                            (with_newVmName newName (state x)))
                         (clone_options c)].
Proof.
  intros Hopen Hblank Hnew.
  set (s1 := with_newVmName blankName (state x)).
  set (s3 := with_newVmName newName (with_inProgress false s1)).
  assert (Hon1 : onClone name c s1 = (with_inProgress false s1, []))
    by (apply onClone_blank, blank_trim; exact Hblank).
  assert (Hon3 : onClone name c s3
                 = (with_inProgress true s3,
                    [Spawn (cloneArgs name c s3) (clone_options c)]))
    by (apply onClone_named, not_blank_trim; exact Hnew).
  assert (Hdis : cloneIsDisabled (render s3) = false).
  { apply cloneIsDisabled_spec. split; [reflexivity|].
    apply not_blank_trim. exact Hnew. }
  set (x1 := {| state := s1; running := running x; log := log x |}).
  set (x2 := {| state := with_inProgress false s1;
                running := running x + 0; log := log x ++ [] |}).
  set (x3 := {| state := s3; running := running x + 0;
                log := log x ++ [] |}).
  set (x4 := {| state := with_inProgress true s3;
                running := running x + 0 + 1;
                log := (log x ++ []) ++
                       [Spawn (cloneArgs name c s3) (clone_options c)] |}).
  assert (H1 : step name c (ChangeName blankName) x = Some x1)
    by (unfold step; rewrite Hopen; reflexivity).
  assert (H2 : step name c SubmitForm x1 = Some x2).
  { unfold step, invokeOnClone. change (state x1) with s1.
    change (isOpen s1) with (isOpen (state x)).
    rewrite Hopen, Hon1. reflexivity. }
  assert (H3 : step name c (ChangeName newName) x2 = Some x3).
  { unfold step. change (isOpen (state x2)) with (isOpen (state x)).
    rewrite Hopen. reflexivity. }
  assert (H4 : step name c ClickClone x3 = Some x4).
  { unfold step, invokeOnClone. change (state x3) with s3.
    change (isOpen s3) with (isOpen (state x)).
    rewrite Hopen, Hdis, Hon3. reflexivity. }
  exists x4. split.
  - cbn [steps]. rewrite H1, H2, H3, H4. reflexivity.
  - subst x4; cbn [state running log]. rewrite app_nil_r.
    split; [reflexivity|]. split; [lia | reflexivity].
Qed.

Lemma blank_submit_reopens_button_witness :
  exists x',
    steps sample_vm system
      [ChangeName []; SubmitForm; ChangeName (Js.lit "bar"); ClickClone]
      cloning_session
    = Some x'
    /\ running x' = 2.
Proof.
  destruct (blank_submit_reopens_button sample_vm system cloning_session
              [] (Js.lit "bar") eq_refl eq_refl eq_refl)
    as (x' & Hrun & _ & Hn & _).
  exists x'. split; [exact Hrun | exact Hn].
Defined.

(** X16: once the probe has settled without finding reflink support, no
    clone is ever started with [--reflink]: whatever happens in the dialog
    from then on, every command it spawns is a [virt-clone] with
    [--auto-clone]. *)
Theorem no_reflink_without_support
  (name : Js.str) (c : ConnectionName) (inputs : list Input)
  (x x' : Session) :
  isCheckingFs (state x) = false ->
  hasReflink (fsInfo (state x)) = false ->
  log x = [] ->
  steps name c inputs x = Some x' ->
  Forall (isFullCopyCloneOf name c) (log x').
Proof.
  intros Hdone Hno Hlog Hrun.
  assert (H : (isCheckingFs (state x') = false
               /\ hasReflink (fsInfo (state x')) = false)
              /\ Forall (isFullCopyCloneOf name c) (log x')).
  { revert Hrun.
    apply (steps_invariant name c
             (fun y => (isCheckingFs (state y) = false
                        /\ hasReflink (fsInfo (state y)) = false)
                       /\ Forall (isFullCopyCloneOf name c) (log y))).
    - intros i y y' [[Hc Hy] Hl] Hstep.
      destruct (step_cases name c i y y' Hstep)
        as [-> | (El & _ & _ & [[Ef Ec] | Epending])].
      + destruct (invokeOnClone_cases name c y) as [[_ ->] | [_ ->]];
          cbn [state log].
        * rewrite app_nil_r. auto.
        * split; [auto|]. apply Forall_app. split; [exact Hl|].
          constructor; [|constructor].
          exists (newVmName (state y)). unfold cloneArgs.
          rewrite Hy, andb_false_r. reflexivity.
      + rewrite El, Ef, Ec. auto.
      + rewrite Epending in Hc. discriminate Hc.
    - rewrite Hlog. auto. }
  apply H.
Qed.

Lemma no_reflink_without_support_witness :
  let h := host_of (Fulfilled sample_disk_list)
                   (Fulfilled (df_output xfs)) failure in
  let x := {| state := final (probeFileSystem sample_vm system h
                                (initialState sample_vm));
              running := 0; log := [] |} in
  steps sample_vm system [ProbeSettles h] (openSession sample_vm) = Some x
  /\ exists x',
       steps sample_vm system [SubmitForm; CloneExit false; ClickClone] x
       = Some x'
       /\ length (log x') = 2
       /\ Forall (isFullCopyCloneOf sample_vm system) (log x').
Proof.
  intros h x. split; [vm_compute; reflexivity|].
  assert (Hc : isCheckingFs (state x) = false) by (vm_compute; reflexivity).
  assert (Hr : hasReflink (fsInfo (state x)) = false)
    by (vm_compute; reflexivity).
  destruct (steps sample_vm system [SubmitForm; CloneExit false; ClickClone] x)
    as [x'|] eqn:E.
  - exists x'. split; [reflexivity|].
    split; [|exact (no_reflink_without_support sample_vm system _ x x'
                      Hc Hr eq_refl E)].
    vm_compute in E. injection E as <-. reflexivity.
  - vm_compute in E. discriminate E.
Defined.

(** * Further properties of the type detection *)

Lemma trimStart_skips_blank (pre rest : Js.str) :
  blank pre = true -> Js.trimStart (pre ++ rest) = Js.trimStart rest.
Proof.
  unfold blank. induction pre as [|ch r IH]; simpl; [reflexivity|].
  intro H. apply andb_true_iff in H. destruct H as [Hch Hr].
  rewrite Hch. exact (IH Hr).
Qed.

Lemma trimStart_keeps_token (token rest : Js.str) :
  token <> [] ->
  forallb (fun ch => negb (Js.isWhiteSpace ch)) token = true ->
  Js.trimStart (token ++ rest) = token ++ rest.
Proof.
  destruct token as [|ch r]; [contradiction|]. simpl. intros _ H.
  apply andb_true_iff in H. destruct H as [Hch _].
  apply negb_true_iff in Hch. rewrite Hch. reflexivity.
Qed.

(** [trim] takes the white space off both sides of a word. *)
Lemma trim_padded (pre token post : Js.str) :
  blank pre = true -> blank post = true ->
  forallb (fun ch => negb (Js.isWhiteSpace ch)) token = true ->
  Js.trim (pre ++ token ++ post) = token.
Proof.
  intros Hpre Hpost Htoken.
  destruct token as [|ch r] eqn:E.
  - simpl. apply trim_nil. unfold blank in *.
    rewrite forallb_app, Hpre, Hpost. reflexivity.
  - rewrite <- E in *. assert (Hne : token <> []) by (rewrite E; discriminate).
    unfold Js.trim, Js.trimEnd.
    rewrite (trimStart_skips_blank pre _ Hpre),
      (trimStart_keeps_token token post Hne Htoken).
    rewrite rev_app_distr.
    rewrite trimStart_skips_blank
      by (unfold blank in *; rewrite forallb_rev_eq; exact Hpost).
    rewrite <- (app_nil_r (rev token)).
    rewrite trimStart_keeps_token.
    + rewrite app_nil_r. apply rev_involutive.
    + intro Hr. apply (f_equal (@rev Js.char)) in Hr.
      rewrite rev_involutive in Hr. exact (Hne Hr).
    + rewrite forallb_rev_eq. exact Htoken.
Qed.

(** X17: the detected type is the word on the second line of the [df]
    output: the header, white space around the word (the carriage return of
    a CRLF line end, say) and all lines after the second play no part. *)
Theorem detected_type_ignores_padding
  (header pre ty post rest : Js.str) :
  ~ In newline header ->
  ~ In newline pre -> ~ In newline post ->
  blank pre = true -> blank post = true ->
  forallb (fun ch => negb (Js.isWhiteSpace ch)) ty = true ->
  detectedType (header ++ newline :: (pre ++ ty ++ post) ++ newline :: rest)
  = ty
  /\ detectedType (header ++ newline :: pre ++ ty ++ post) = ty.
Proof.
  intros Hh Hpre Hpost Bpre Bpost Hty.
  assert (Hline : ~ In newline (pre ++ ty ++ post)).
  { rewrite !in_app_iff. intros [H|[H|H]]; auto.
    rewrite forallb_forall in Hty. specialize (Hty newline H).
    discriminate Hty. }
  unfold detectedType, fsLinesOf, Js.at_. split.
  - rewrite (split_char_app newline header _ Hh),
      (split_char_app newline _ rest Hline).
    simpl. apply trim_padded; assumption.
  - rewrite (split_char_app newline header _ Hh),
      (split_char_whole newline _ Hline).
    simpl. apply trim_padded; assumption.
Qed.

Lemma detected_type_ignores_padding_witness :
  detectedType (Js.lit "Type" ++ [13; 10] ++ Js.lit "btrfs" ++ [13; 10])%N
  = btrfs.
Proof.
  refine (proj1 (detected_type_ignores_padding
                   (Js.lit "Type" ++ [13%N]) [] btrfs [13%N] [] _ _ _
                   eq_refl eq_refl eq_refl));
    vm_compute; intuition discriminate.
Defined.

(** * Further properties of the clone output and of probe and clone together *)

(** X18: the output kept for display is the piece the stream callback got
    last, not what has been streamed so far; nothing else in the state moves
    while output arrives. *)
Theorem stream_keeps_last_chunk
  (name : Js.str) (c : ConnectionName) (chunks : list Js.str) (x : Session) :
  0 < running x ->
  steps name c (List.map CloneStream chunks) x
  = Some {| state := with_virtCloneOutput
                       (last chunks (virtCloneOutput (state x))) (state x);
            running := running x;
            log := log x |}.
Proof.
  revert x. induction chunks as [|d rest IH]; intros x Hrun.
  - destruct x as [s n l]. destruct s. reflexivity.
  - cbn [List.map steps]. unfold step.
    destruct (running x) as [|n] eqn:R; [lia|].
    rewrite IH by (simpl; lia).
    cbn [state running log]. rewrite (last_cons_default rest d).
    reflexivity.
Qed.

Lemma stream_keeps_last_chunk_witness :
  option_map (fun x => virtCloneOutput (state x))
    (steps sample_vm system
       [CloneStream (Js.lit "Allocating 'foo-clone.qcow2'");
        CloneStream (Js.lit "Clone 'foo-clone' created successfully.")]
       cloning_session)
  = Some (Js.lit "Clone 'foo-clone' created successfully.").
Proof.
  change (steps sample_vm system
            [CloneStream (Js.lit "Allocating 'foo-clone.qcow2'");
             CloneStream (Js.lit "Clone 'foo-clone' created successfully.")]
            cloning_session)
    with (steps sample_vm system
            (List.map CloneStream
               [Js.lit "Allocating 'foo-clone.qcow2'";
                Js.lit "Clone 'foo-clone' created successfully."])
            cloning_session).
  rewrite (stream_keeps_last_chunk sample_vm system
             [Js.lit "Allocating 'foo-clone.qcow2'";
              Js.lit "Clone 'foo-clone' created successfully."]
             cloning_session (le_n 1)).
  reflexivity.
Defined.

(** X19: when the probe removes its test file, that is when the trial copy
    went through, submitting the form as it stands clones under the proposed
    name with [--reflink]; and so it does after the user has clicked the
    checkbox, whichever way: the handler of the checkbox stores the event,
    which is truthy, so the box cannot switch reflink off. *)
Theorem probed_reflink_is_used
  (name : Js.str) (c : ConnectionName) (h : Host) (checked : bool) :
  removesTestFile (trace (probeFileSystem name c h (initialState name)))
  = true ->
  let clone := Spawn [Js.lit "virt-clone"; Js.lit "--connect"; qemu_uri c;
                      Js.lit "--original"; name; Js.lit "--name";
                      name ++ Js.lit "-clone"; reflinkFlag]
                     (clone_options c) in
  option_map log
    (steps name c [ProbeSettles h; SubmitForm] (openSession name))
  = Some [clone]
  /\ option_map log
       (steps name c [ProbeSettles h; ToggleReflink checked; SubmitForm]
          (openSession name))
     = Some [clone].
Proof.
  intros Hrm clone. subst clone.
  pose proof (default_name_not_blank name) as B.
  apply not_blank_trim in B.
  cbn [steps]. unfold step at 1 3, openSession. cbn [state isCheckingFs initialState].
  destruct (probe_run_inv name c h (initialState name));
    try discriminate Hrm.
  unfold final, fst, snd.
  set (s1 := with_isCheckingFs false
               (with_useReflink true
                  (with_fsInfo
                     {| hasReflink := true;
                        fsType := detectedType fsOutput |}
                     (initialState name)))).
  assert (Hon : onClone name c s1
                = (with_inProgress true s1,
                   [Spawn (cloneArgs name c s1) (clone_options c)]))
    by (apply onClone_named; exact B).
  split.
  - unfold step, invokeOnClone. cbn [state running log].
    change (isOpen s1) with true. cbv iota. rewrite Hon. reflexivity.
  - unfold step at 1. cbn [state running log].
    change (isOpen s1) with true.
    change (reflinkGroup (render s1))
      with (ReflinkCheckbox true (detectedType fsOutput)).
    cbv iota.
    change (onReflinkChange checked s1) with s1.
    unfold step, invokeOnClone. cbn [state running log].
    change (isOpen s1) with true. cbv iota. rewrite Hon. reflexivity.
Qed.

Lemma probed_reflink_is_used_witness :
  let h := host_of (Fulfilled sample_disk_list)
                   (Fulfilled (df_output btrfs)) (Fulfilled []) in
  option_map log
    (steps sample_vm session [ProbeSettles h; ToggleReflink false; SubmitForm]
       (openSession sample_vm))
  = Some [Spawn [Js.lit "virt-clone"; Js.lit "--connect";
                 Js.lit "qemu:///session"; Js.lit "--original";
                 Js.lit "foo"; Js.lit "--name"; Js.lit "foo-clone";
                 Js.lit "--reflink"]
                (clone_options session)].
Proof.
  intro h.
  exact (proj2 (probed_reflink_is_used sample_vm session h false eq_refl)).
Defined.
